(** * astropc: the planetary position engine

    A shallow embedding of the planetary part of [astropc]
    ([kepler.py], [mathutils.py], [nutation.py], [obliq.py], [sun/sun.py],
    [planets/orbit.py], [planets/pert.py], [planets/sphera.py],
    [planets/planet.py]) and the properties of its specification that
    concern it.

    Conventions of the embedding.
    - A Python [float] is read as a real number ([R]): arithmetic is exact,
      [sin], [cos], [atan], ... are the mathematical functions.  Rounding,
      infinities and NaN are outside this model; the theorems over it are
      stated so that rounding does not contradict them (closed ends where a
      sum can round onto the end of a range).
    - Where rounding decides what the code returns (the wrap of an angle
      into its range), the functions are modelled a second time, in module
      [F64], over the binary64 numbers of the kernel, and evaluated.
    - The exceptions the arithmetic of the code can raise are explicit:
      [/] raises [ZeroDivisionError] on a zero divisor, [math.sqrt] and
      [math.asin] raise [ValueError] ("math domain error") outside their
      domain, and a recursive call made when the interpreter has no stack
      frame left raises [RecursionError].  The recursive functions take the
      number of frames still available as their first argument [depth].
    - The memoisation of [CelestialSphera.get_orbit_instance]
      ([functools.cache]) is an explicit store threaded through every
      function that receives the context; the store also logs the calls of
      [_instantiate_orbit], which is what the call-counting test observes. *)

From stdpp Require Import gmap.
From Stdlib Require Import Reals Lra Lia ZArith List String.
From Stdlib Require Floats.
Import ListNotations.

Local Open Scope R_scope.

(** ** Exceptions and results *)

Inductive exn := ZeroDivisionError | ValueError | RecursionError.

Inductive Res (A : Type) : Type :=
| Ok (a : A)
| Raise (e : exn).
Arguments Ok {A} a.
Arguments Raise {A} e.

Definition res_bind {A B} (r : Res A) (f : A -> Res B) : Res B :=
  match r with
  | Ok a => f a
  | Raise e => Raise e
  end.

Declare Scope res_scope.
Delimit Scope res_scope with res.
Notation "'let*' x ':=' c1 'in' c2" := (res_bind c1 (fun x => c2))
  (at level 10, x name, c1 at level 100, c2 at level 200) : res_scope.

(** ** The [math] module, read over the reals *)

Module math.

Definition pi : R := PI.

Definition fabs (x : R) : R := Rabs x.

(** Truncation toward zero, the integer part C uses for [fmod] and [modf]. *)
Definition trunc (x : R) : Z :=
  if Rle_lt_dec 0 x then Int_part x else (- Int_part (- x))%Z.

(** [math.floor x]: the largest integer not above [x]. *)
Definition floor (x : R) : Z := Int_part x.

(** [math.fmod x r]: the remainder with the sign of [x].  Python raises
    [ValueError] for [r = 0]; the code only ever passes 360 and [PI2]. *)
Definition fmod (x r : R) : R := x - IZR (trunc (x / r)) * r.

(** [math.modf x]: fractional and integer part, both with the sign of [x]. *)
Definition modf (x : R) : R * R := (x - IZR (trunc x), IZR (trunc x)).

Definition radians (x : R) : R := x * (PI / 180).
Definition degrees (x : R) : R := x * (180 / PI).

Definition sqrt (x : R) : Res R :=
  if Rlt_dec x 0 then Raise ValueError else Ok (R_sqrt.sqrt x).

Definition asin (x : R) : Res R :=
  if Rlt_dec 1 (Rabs x) then Raise ValueError else Ok (Ratan.asin x).

Definition atan2 (y x : R) : R :=
  if Rlt_dec 0 x then atan (y / x)
  else if Rlt_dec x 0 then
         (if Rle_lt_dec 0 y then atan (y / x) + PI else atan (y / x) - PI)
  else if Rlt_dec 0 y then PI / 2
  else if Rlt_dec y 0 then - (PI / 2)
  else 0.

End math.

(** Python's float division. *)
Definition pydiv (x y : R) : Res R :=
  if Req_dec_T y 0 then Raise ZeroDivisionError else Ok (x / y).

(** ** mathutils.py *)

Definition PI2 : R := math.pi * 2.

(** [reduce(lambda a, b: tmul(a) + b, reversed(coeffs))]: a left fold over
    the reversed coefficients, started at the last one. *)
Definition polynome (t a : R) (args : list R) : R :=
  match rev (a :: args) with
  | [] => 0
  | x :: xs => fold_left (fun a b => t * a + b) xs x
  end.

Definition to_range (x r : R) : R :=
  let a := math.fmod x r in
  if Rlt_dec a 0 then a + r else a.

Definition reduce_deg (x : R) : R := to_range x 360.

Definition reduce_rad (x : R) : R := to_range x PI2.

Definition frac (x : R) : R := fst (math.modf x).

Definition frac360 (x : R) : R := frac x * 360.0.

(** [ddd(d, m=0, s=0.0)]: [reduce(sum_frac, (s, m, d))] is
    [sum_frac(sum_frac(s, m), d)]; the result is negative as soon as one of
    the three arguments is. *)
Definition sum_frac (a b : R) : R := math.fabs a / 60 + math.fabs b.

Definition ddd (d m : Z) (s : R) : R :=
  let x := sum_frac (sum_frac s (IZR m)) (IZR d) in
  if Z_lt_dec d 0 then - x
  else if Z_lt_dec m 0 then - x
  else if Rlt_dec s 0 then - x
  else x.

(** [dms(x)]; [int(i)] of the integer part [i] that [modf] returns is
    [trunc]. *)
Definition dms (x : R) : Z * Z * R :=
  let f := fst (math.modf (Rabs x)) in
  let d := math.trunc (Rabs x) in
  let f60 := f * 60 in
  let f' := fst (math.modf f60) in
  let m := math.trunc f60 in
  let s := f' * 60 in
  if Rlt_dec x 0 then
    if Z.eq_dec d 0 then
      if Z.eq_dec m 0 then (d, m, - s) else (d, (- m)%Z, s)
    else ((- d)%Z, m, s)
  else (d, m, s).

(** [zdms(x)]; [//] and [%] of Python integers round toward minus
    infinity, as [Z.div] and [Z.modulo] do. *)
Definition zdms (x : R) : Z * Z * Z * R :=
  let '(d, m, s) := dms x in
  let z := (d / 30)%Z in
  let d := (d mod 30)%Z in
  (z, d, m, s).

Definition shortest_arc_deg (a b : R) : R :=
  let x := math.fabs (a - b) in
  if Rlt_dec 180 x then 360.0 - x else x.

Definition shortest_arc_rad (a b : R) : R :=
  let x := math.fabs (a - b) in
  if Rlt_dec math.pi x then PI2 - x else x.

Definition diff_angle (a b : R) : R :=
  let x := if Rlt_dec b a then b + 360 - a else b - a in
  if Rlt_dec 180 x then x - 360 else x.

Record Polar := mkPolar { phi : R; rho : R }.

(** ** kepler.py *)

Definition _DELTA : R := 1e-7.

(** [eccentric_anomaly(s, m, _ea=None)]; [depth] frames are available. *)
Fixpoint eccentric_anomaly (depth : nat) (s m : R) (_ea : option R) : Res R :=
  match depth with
  | O => Raise RecursionError
  | S depth' =>
      let _ea := match _ea with None => m | Some x => x end in
      let dla := _ea - (s * sin _ea) - m in
      if Rlt_dec (math.fabs dla) _DELTA then Ok _ea
      else (let* q := pydiv dla (1 - (s * cos _ea)) in
            eccentric_anomaly depth' s m (Some (_ea - q)))%res
  end.

Definition true_anomaly (s ea : R) : Res R :=
  (let* q := pydiv (1 + s) (1 - s) in
   let* r := math.sqrt q in
   Ok (2 * atan (r * tan (ea / 2))))%res.

(** ** timeutils/julian.py (the one constant the planets use) *)

Definition DAYS_PER_CENT : R := 36525.

(** ** planets/ids.py *)

Inductive PlanetId :=
| MERCURY | VENUS | MARS | JUPITER | SATURN | URANUS | NEPTUNE | PLUTO.

#[global] Instance PlanetId_eq_dec : EqDecision PlanetId.
Proof. solve_decision. Defined.

Definition PlanetId_to_nat (id : PlanetId) : nat :=
  match id with
  | MERCURY => 0 | VENUS => 1 | MARS => 2 | JUPITER => 3
  | SATURN => 4 | URANUS => 5 | NEPTUNE => 6 | PLUTO => 7
  end%nat.

Definition PlanetId_of_nat (n : nat) : PlanetId :=
  match n with
  | 0 => MERCURY | 1 => VENUS | 2 => MARS | 3 => JUPITER
  | 4 => SATURN | 5 => URANUS | 6 => NEPTUNE | _ => PLUTO
  end%nat.

#[global] Instance PlanetId_countable : Countable PlanetId.
Proof.
  apply (inj_countable' PlanetId_to_nat PlanetId_of_nat).
  intros []; reflexivity.
Defined.

(** ** planets/orbit.py *)

(** [Terms] holds the coefficients, lowest power first.  [assemble] passes
    them to [polynome], whose first coefficient is required, so the record
    keeps that one apart. *)
Module Terms.

Record t := make { a0 : R; args : list R }.

Definition terms (self : t) : list R := a0 self :: args self.

Definition assemble (self : t) (t : R) : R :=
  reduce_deg (polynome t (a0 self) (args self)).

End Terms.

(** [MLTerms(a, b=0, c=0, d=0)], whose [_data] is always [(a, b, c, d)]. *)
Module MLTerms.

Record t := make { a : R; b : R; c : R; d : R }.

Definition terms (self : t) : list R := [a self; b self; c self; d self].

Definition assemble (self : t) (t : R) : R :=
  let b := frac360 (b self * t) in
  reduce_deg (a self + b + (d self * t + c self) * t * t).

End MLTerms.

Record OrbitInstance := mkOrbitInstance {
  oi_perihelion : R;
  oi_eccentricity : R;
  oi_mean_node : R;
  oi_inclination : R;
  oi_major_semiaxis : R;
  oi_mean_anomaly : R;
  oi_daily_motion : R
}.

Module OElements.

Record t := make {
  mean_longitude : MLTerms.t;
  perihelion : Terms.t;
  eccentricity : Terms.t;
  inclination : Terms.t;
  mean_node : Terms.t;
  major_semiaxis : R
}.

(** [self._dm], computed once by [__init__]. *)
Definition daily_motion (self : t) : R :=
  MLTerms.b (mean_longitude self) * 9.856263e-3
  + (MLTerms.c (mean_longitude self) + MLTerms.d (mean_longitude self))
    / DAYS_PER_CENT.

Definition assemble_mean_anomaly (self : t) (t : R) : R :=
  reduce_deg (MLTerms.assemble (mean_longitude self) t
              - Terms.assemble (perihelion self) t).

Definition instantiate (self : t) (t : R) : OrbitInstance :=
  let ph := Terms.assemble (perihelion self) t in
  {| oi_perihelion := math.radians ph;
     oi_eccentricity := Terms.assemble (eccentricity self) t;
     oi_mean_node := math.radians (Terms.assemble (mean_node self) t);
     oi_inclination := math.radians (Terms.assemble (inclination self) t);
     oi_major_semiaxis := major_semiaxis self;
     oi_mean_anomaly := math.radians (assemble_mean_anomaly self t);
     oi_daily_motion := math.radians (daily_motion self) |}.

End OElements.

(** ** planets/pert.py: the record and the calculators *)

Record PertRecord := mkPertRecord {
  dl : R;   (* in longitude *)
  dr : R;   (* in radius-vector *)
  dml : R;  (* in mean longitude *)
  ds : R;   (* in eccentricity *)
  dm : R;   (* in mean anomaly *)
  da : R;   (* in semi-major axis *)
  dhl : R   (* in heliocentric latitude *)
}.

(** [PertRecord()]: every member at its default. *)
Definition PertRecord_default : PertRecord :=
  {| dl := 0.0; dr := 0.0; dml := 0.0; ds := 0.0; dm := 0.0; da := 0.0;
     dhl := 0.0 |}.

(** The class [PertCalculator] and its eight subclasses; [get_data] is
    dispatched on the class of the object. *)
Inductive PertCalculator :=
| PertBase (id : PlanetId)
| PertMercury | PertVenus | PertMars | PertJupiter
| PertSaturn | PertUranus | PertNeptune | PertPluto.

Definition PertCalculator_id (self : PertCalculator) : PlanetId :=
  match self with
  | PertBase id => id
  | PertMercury => MERCURY | PertVenus => VENUS | PertMars => MARS
  | PertJupiter => JUPITER | PertSaturn => SATURN | PertUranus => URANUS
  | PertNeptune => NEPTUNE | PertPluto => PLUTO
  end.

(** ** planets/planet.py: the class and its registry *)

Module Planet.

Record t := make {
  id : PlanetId;
  name : string;
  is_inner : bool;
  orbit : OElements.t;
  pert_calculator : PertCalculator
}.

Definition for_id (id : PlanetId) : t :=
  match id with
  | MERCURY =>
      make id "Mercury" true
        (OElements.make
           (MLTerms.make 178.179078 415.2057519 3.011e-4 0)
           (Terms.make 75.899697 [1.5554889; 2.947e-4])
           (Terms.make 2.0561421e-1 [2.046e-5; -3e-8])
           (Terms.make 7.002881 [1.8608e-3; -1.83e-5])
           (Terms.make 47.145944 [1.1852083; 1.739e-4])
           3.870986e-1)
        PertMercury
  | VENUS =>
      make id "Venus" true
        (OElements.make
           (MLTerms.make 342.767053 162.5533664 3.097e-4 0)
           (Terms.make 130.163833 [1.4080361; -9.764e-4])
           (Terms.make 6.82069e-3 [-4.774e-5; 9.1e-8])
           (Terms.make 3.393631 [1.0058e-3; -1e-6])
           (Terms.make 75.779647 [8.9985e-1; 4.1e-4])
           7.233316e-1)
        PertVenus
  | MARS =>
      make id "Mars" false
        (OElements.make
           (MLTerms.make 293.737334 53.17137642 3.107e-4 0)
           (Terms.make 3.34218203e2 [1.8407584; 1.299e-4; -1.19e-6])
           (Terms.make 9.33129e-2 [9.2064e-5; -7.7e-8])
           (Terms.make 1.850333 [-6.75e-4; 1.26e-5])
           (Terms.make 48.786442 [7.709917e-1; -1.4e-6; -5.33e-6])
           1.5236883)
        PertMars
  | JUPITER =>
      make id "Jupiter" false
        (OElements.make
           (MLTerms.make 238.049257 8.434172183 3.347e-4 (-1.65e-6))
           (Terms.make 1.2720972e1 [1.6099617; 1.05627e-3; -3.43e-6])
           (Terms.make 4.833475e-2 [1.6418e-4; -4.676e-7; -1.7e-9])
           (Terms.make 1.308736 [-5.6961e-3; 3.9e-6])
           (Terms.make 99.443414 [1.01053; 3.5222e-4; -8.51e-6])
           5.202561)
        PertJupiter
  | SATURN =>
      make id "Saturn" false
        (OElements.make
           (MLTerms.make 266.564377 3.398638567 3.245e-4 (-5.8e-6))
           (Terms.make 9.1098214e1 [1.9584158; 8.2636e-4; 4.61e-6])
           (Terms.make 5.589232e-2 [-3.455e-4; -7.28e-7; 7.4e-10])
           (Terms.make 2.492519 [-3.9189e-3; -1.549e-5; 4e-8])
           (Terms.make 112.790414 [8.731951e-1; -1.5218e-4; -5.31e-6])
           9.554747)
        PertSaturn
  | URANUS =>
      make id "Uranus" false
        (OElements.make
           (MLTerms.make 244.19747 1.194065406 3.16e-4 (-6e-7))
           (Terms.make 1.71548692e2 [1.4844328; 2.372e-4; -6.1e-7])
           (Terms.make 4.63444e-2 [-2.658e-5; 7.7e-8])
           (Terms.make 7.72464e-1 [6.253e-4; 3.95e-5])
           (Terms.make 73.477111 [4.986678e-1; 1.3117e-3])
           19.21814)
        PertUranus
  | NEPTUNE =>
      make id "Neptune" false
        (OElements.make
           (MLTerms.make 84.457994 6.107942056e-1 3.205e-4 (-6e-7))
           (Terms.make 4.6727364e1 [1.4245744; 3.9082e-4; -6.05e-7])
           (Terms.make 8.99704e-3 [6.33e-6; -2e-9])
           (Terms.make 1.779242 [-9.5436e-3; -9.1e-6])
           (Terms.make 130.681389 [1.098935; 2.4987e-4; -4.718e-6])
           30.10957)
        PertNeptune
  | PLUTO =>
      make id "Pluto" false
        (OElements.make
           (MLTerms.make 95.3113544 3.980332167e-1 0 0)
           (Terms.make 224.017 [])
           (Terms.make 2.5515e-1 [])
           (Terms.make 17.1329 [])
           (Terms.make 110.191 [])
           39.8151)
        PertPluto
  end.

End Planet.

(** ** The store behind a context, and the monad of the code that uses it *)

(** [cache]: the entries [functools.cache] holds for one context, keyed by
    planet identifier.  [calls]: the arguments of the calls made to
    [_instantiate_orbit] so far, latest first. *)
Record Store := mkStore {
  cache : gmap PlanetId OrbitInstance;
  calls : list PlanetId
}.

Definition fresh : Store := {| cache := ∅; calls := [] |}.

Definition M (A : Type) : Type := Store -> Res A * Store.

Definition ret {A} (a : A) : M A := fun st => (Ok a, st).

Definition bind {A B} (c : M A) (f : A -> M B) : M B :=
  fun st =>
    match c st with
    | (Ok a, st') => f a st'
    | (Raise e, st') => (Raise e, st')
    end.

Definition lift {A} (r : Res A) : M A := fun st => (r, st).

Declare Scope M_scope.
Delimit Scope M_scope with M.
Notation "'let*' x ':=' c1 'in' c2" := (bind c1 (fun x => c2))
  (at level 10, x name, c1 at level 100, c2 at level 200) : M_scope.

(** ** planets/sphera.py *)

Record Nutation := mkNutation { dpsi : R; deps : R }.

(** ** nutation.py *)

Definition calc_nutation (t : R) : Nutation :=
  let t2 := t * t in
  let ls := math.radians (2.796967e2 + 3.030e-4 * t2 + frac360 (1.000021358e2 * t)) in
  let ms := math.radians (3.584758e2 - 1.500e-4 * t2 + frac360 (9.999736056e1 * t)) in
  let ld := math.radians (2.704342e2 - 1.133e-3 * t2 + frac360 (1.336855231e3 * t)) in
  let md := math.radians (2.961046e2 + 9.192e-3 * t2 + frac360 (1.325552359e3 * t)) in
  let nm := math.radians (2.591833e2 + 2.078e-3 * t2 - frac360 (5.372616667 * t)) in
  let tls := ls + ls in
  let tld := ld + ld in
  let tnm := nm + nm in
  let dpsi :=
    (-17.2327 - 1.737e-2 * t) * sin(nm)
    + (-1.2729 - 1.3e-4 * t) * sin(tls)
    + 2.088e-1 * sin(tnm)
    - 2.037e-1 * sin(tld)
    + (1.261e-1 - 3.1e-4 * t) * sin(ms)
    + 6.75e-2 * sin(md)
    - (4.97e-2 - 1.2e-4 * t) * sin(tls + ms)
    - 3.42e-2 * sin(tld - nm)
    - 2.61e-2 * sin(tld + md)
    + 2.14e-2 * sin(tls - ms)
    - 1.49e-2 * sin(tls - tld + md)
    + 1.24e-2 * sin(tls - nm)
    + 1.14e-2 * sin(tld - md)
  in
  let deps :=
    (9.21 + 9.1e-4 * t) * cos(nm)
    + (5.522e-1 - 2.9e-4 * t) * cos(tls)
    - 9.04e-2 * cos(tnm)
    + 8.84e-2 * cos(tld)
    + 2.16e-2 * cos(tls + ms)
    + 1.83e-2 * cos(tld - nm)
    + 1.13e-2 * cos(tld + md)
    - 9.3e-3 * cos(tls - ms)
    - 6.6e-3 * cos(tls - nm)
  in
  {| dpsi := dpsi / 3600; deps := deps / 3600 |}.

(** ** obliq.py *)

Definition calc_obliquity (djd deps : R) : R :=
  let t := djd / DAYS_PER_CENT in
  let c := (((-0.00181 * t) + 0.0059) * t + 46.845) * t in
  23.45229444 - (c / 3600) + deps.

(** ** sun/sun.py *)

Module sun.

Definition _ABERRATION : R := 5.69e-3.

Definition mean_longitude (t : R) : R :=
  reduce_deg (2.7969668e2 + 3.025e-4 * t * t + frac360 (1.000021359e2 * t)).

Definition mean_anomaly (t : R) : R :=
  reduce_deg
    (3.5847583e2 - (1.5e-4 + 3.3e-6 * t) * t * t + frac360 (9.999736042e1 * t)).

Definition _calc_perturbations (t a b : R) : R :=
  math.radians (a + frac360 (b * t)).

(** [true_geocentric(t, ms=None)]; [depth] frames are left for the Kepler
    solver. *)
Definition true_geocentric (depth : nat) (t : R) (ms : option R) : Res Polar :=
  (let ms := match ms with None => mean_anomaly t | Some ms => ms end in
   let ls := mean_longitude t in
   let ma := math.radians ms in
   let s := polynome t 1.675104e-2 [-4.18e-5; -1.26e-7] in
   let* ea := eccentric_anomaly depth s (ma - PI2 * IZR (math.floor (ma / PI2))) None in
   let* nu := true_anomaly s ea in
   let t2 := t * t in
   let calc_pert := _calc_perturbations t in
   let a := calc_pert 153.23 6.255209472e1 in
   let b := calc_pert 216.57 1.251041894e2 in
   let c := calc_pert 312.69 9.156766028e1 in
   let d := calc_pert (350.74 - 1.44e-3 * t2) 1.236853095e3 in
   let h := calc_pert 353.4 1.831353208e2 in
   let e := math.radians (231.19 + 20.2 * t) in
   let dl :=
     1.34e-3 * cos(a)
     + 1.54e-3 * cos(b)
     + 2e-3 * cos(c)
     + 1.79e-3 * sin(d)
     + 1.78e-3 * sin(e)
   in
   let dr :=
     5.43e-6 * sin(a)
     + 1.575e-5 * sin(b)
     + 1.627e-5 * sin(c)
     + 3.076e-5 * cos(d)
     + 9.27e-6 * sin(h)
   in
   let lsn := reduce_deg (math.degrees nu + ls - ms + dl) in
   let rsn := 1.0000002 * (1 - s * cos ea) + dr in
   Ok {| phi := lsn; rho := rsn |})%res.

(** [apparent(djd, dpsi=None, ignore_light_travel=True)]. *)
Definition apparent (depth : nat) (djd : R) (dpsi_arg : option R)
    (ignore_light_travel : bool) : Res Polar :=
  (let t := djd / DAYS_PER_CENT in
   let dpsi :=
     match dpsi_arg with
     | None => dpsi (calc_nutation t)
     | Some dpsi => dpsi
     end in
   let* tgeo := true_geocentric depth t None in
   let lmbda := phi tgeo + dpsi in
   let lmbda := lmbda - _ABERRATION in
   let lmbda :=
     if ignore_light_travel then lmbda
     else
       let dt := 1.365 * rho tgeo in
       lmbda - dt * 15 / 3600 in
   Ok {| phi := lmbda; rho := rho tgeo |})%res.

End sun.

Module CelestialSphera.

(** The arguments of [__init__]; [_aux_sun] is computed from [t] there. *)
Record ctx := make {
  t : R;
  manom_sun : R;
  sun_geo : Polar;
  obliquity : R;
  nutation : Nutation;
  apparent : bool
}.

(** The auxiliary Sun-related elements that [__init__] stores in
    [self._aux_sun]. *)
Definition aux_sun (self : ctx) : list R :=
  let t := t self in
  let aux0 := t / 5 + 0.1 in
  let aux1 := reduce_rad (4.14473 + 5.29691e1 * t) in
  let aux2 := reduce_rad (4.641118 + 2.132991e1 * t) in
  let aux3 := reduce_rad (4.250177 + 7.478172 * t) in
  let aux4 := 5 * aux2 - 2 * aux1 in
  let aux5 := 2 * aux1 - 6 * aux2 + 3 * aux3 in
  [aux0; aux1; aux2; aux3; aux4; aux5].

Definition _instantiate_orbit (self : ctx) (id : PlanetId) : M OrbitInstance :=
  fun st =>
    let pla := Planet.for_id id in
    (Ok (OElements.instantiate (Planet.orbit pla) (t self)),
     {| cache := cache st; calls := id :: calls st |}).

(** [@cache]: a hit returns the stored value; a miss runs the method and
    stores what it returned. *)
Definition get_orbit_instance (self : ctx) (id : PlanetId) : M OrbitInstance :=
  fun st =>
    match cache st !! id with
    | Some oi => (Ok oi, st)
    | None =>
        match _instantiate_orbit self id st with
        | (Ok oi, st') =>
            (Ok oi, {| cache := <[id := oi]> (cache st'); calls := calls st' |})
        | (Raise e, st') => (Raise e, st')
        end
    end.

Definition get_mean_anomaly (self : ctx) (id : PlanetId) (dt : option R) : M R :=
  (let* oi := get_orbit_instance self id in
   let ma := oi_mean_anomaly oi in
   let ma :=
     match dt with
     | Some dt =>
         ma - math.radians (dt * OElements.daily_motion (Planet.orbit (Planet.for_id id)))
     | None => ma
     end in
   ret ma)%M.

(** [create(djd, apparent=True)]; [depth] frames are left for the Kepler
    solver behind the position of the Sun. *)
Definition create (depth : nat) (djd : R) (apparent : bool) : Res ctx :=
  (let t := djd / DAYS_PER_CENT in
   let ms := sun.mean_anomaly t in
   let* sg := sun.true_geocentric depth t (Some ms) in
   let nu := calc_nutation t in
   let ob := calc_obliquity djd (deps nu) in
   Ok {| t := t; manom_sun := math.radians ms; sun_geo := sg; nutation := nu;
         obliquity := ob; apparent := apparent |})%res.

End CelestialSphera.

(** ** planets/pert.py: the perturbation series

    One [get_data] per subclass, term by term as in the source. *)

Definition PertMercury_get_data (ctx : CelestialSphera.ctx) (dt : R) : M PertRecord :=
  (
   let* me := CelestialSphera.get_mean_anomaly ctx MERCURY (Some dt) in
   let* ve := CelestialSphera.get_mean_anomaly ctx VENUS (Some dt) in
   let* ju := CelestialSphera.get_mean_anomaly ctx JUPITER (Some dt) in
   let dl :=
       0.00204 * cos(5 * ve - 2 * me + 0.21328)
       + 0.00103 * cos(2 * ve - me - 2.8046)
       + 0.00091 * cos(2 * ju - me - 0.64582)
       + 0.00078 * cos(5 * ve - 3 * me + 0.17692)
   in
   let dr :=
       7.525e-06 * cos(2 * ju - me + 0.925251)
       + 6.802e-06 * cos(5 * ve - 3 * me - 4.53642)
       + 5.457e-06 * cos(2 * ve - 2 * me - 1.24246)
       + 3.569e-06 * cos(5 * ve - me - 1.35699)
   in
   ret {| dl := dl; dr := dr; dml := 0.0; ds := 0.0; dm := 0.0; da := 0.0; dhl := 0.0 |}
  )%M.

Definition PertVenus_get_data (ctx : CelestialSphera.ctx) (dt : R) : M PertRecord :=
  (
   let t := CelestialSphera.t ctx in
   let ms := CelestialSphera.manom_sun ctx in
   let* ve := CelestialSphera.get_mean_anomaly ctx VENUS (Some dt) in
   let* ju := CelestialSphera.get_mean_anomaly ctx JUPITER (Some dt) in
   let dl :=
       0.00313 * cos(2 * ms - 2 * ve - 2.587)
       + 0.00198 * cos(3 * ms - 3 * ve + 0.044768)
       + 0.00136 * cos(ms - ve - 2.0788)
       + 0.00096 * cos(3 * ms - 2 * ve - 2.3721)
       + 0.00082 * cos(ju - ve - 3.6318)
   in
   let dr :=
       2.2501e-05 * cos(2 * ms - 2 * ve - 1.01592)
       + 1.9045e-05 * cos(3 * ms - 3 * ve + 1.61577)
       + 6.887e-06 * cos(ju - ve - 2.06106)
       + 5.172e-06 * cos(ms - ve - 0.508065)
       + 3.62e-06 * cos(5 * ms - 4 * ve - 1.81877)
       + 3.283e-06 * cos(4 * ms - 4 * ve + 1.10851)
       + 3.074e-06 * cos(2 * ju - 2 * ve - 0.962846)
   in
   let dm :=  math.radians(7.7e-4 * sin(4.1406 + t * 2.6227)) in
   ret {| dl := dl; dr := dr; dml := dm; ds := 0.0; dm := dm; da := 0.0; dhl := 0.0 |}
  )%M.

Definition PertMars_get_data (ctx : CelestialSphera.ctx) (dt : R) : M PertRecord :=
  (
   let* ve := CelestialSphera.get_mean_anomaly ctx VENUS (Some dt) in
   let* ju := CelestialSphera.get_mean_anomaly ctx JUPITER (Some dt) in
   let ms := CelestialSphera.manom_sun ctx in
   let* ma := CelestialSphera.get_mean_anomaly ctx MARS (Some dt) in
   let a := 3 * ju - 8 * ma + 4 * ms in
   let sa := sin(a) in
   let ca := cos(a) in
   let dl :=
       0.00705 * cos(ju - ma - 0.85448)
       + 0.00607 * cos(2 * ju - ma - 3.2873)
       + 0.00445 * cos(2 * ju - 2 * ma - 3.3492)
       + 0.00388 * cos(ms - 2 * ma + 0.35771)
       + 0.00238 * cos(ms - ma + 0.61256)
       + 0.00204 * cos(2 * ms - 3 * ma + 2.7688)
       + 0.00177 * cos(3 * ma - ve - 1.0053)
       + 0.00136 * cos(2 * ms - 4 * ma + 2.6894)
       + 0.00104 * cos(ju + 0.30749)
   in
   let dr :=
       5.3227e-05 * cos(ju - ma + 0.717864)
       + 5.0989e-05 * cos(2 * ju - 2 * ma - 1.77997)
       + 3.8278e-05 * cos(2 * ju - ma - 1.71617)
       + 1.5996e-05 * cos(ms - ma - 0.969618)
       + 1.4764e-05 * cos(2 * ms - 3 * ma + 1.19768)
       + 8.966e-06 * cos(ju - 2 * ma + 0.761225)
       + 7.914e-06 * cos(3 * ju - 2 * ma - 2.43887)
       + 7.004e-06 * cos(2 * ju - 3 * ma - 1.79573)
       + 6.62e-06 * cos(ms - 2 * ma + 1.97575)
       + 4.93e-06 * cos(3 * ju - 3 * ma - 1.33069)
       + 4.693e-06 * cos(3 * ms - 5 * ma + 3.32665)
       + 4.571e-06 * cos(2 * ms - 4 * ma + 4.27086)
       + 4.409e-06 * cos(3 * ju - ma - 2.02158)
   in
   let dm :=  math.radians(-(0.01133 * sa + 0.00933 * ca)) in
   ret {| dl := dl; dr := dr; dml := dm; ds := 0.0; dm := dm; da := 0.0; dhl := 0.0 |}
  )%M.

Definition PertJupiter_get_data (ctx : CelestialSphera.ctx) (dt : R) : M PertRecord :=
  (
   let* oi := CelestialSphera.get_orbit_instance ctx JUPITER in
   let s := oi_eccentricity oi in
   let x := CelestialSphera.aux_sun ctx in
   let x1 := nth 0 x 0 in
   let x2 := nth 1 x 0 in
   let x3 := nth 2 x 0 in
   let x5 := nth 4 x 0 in
   let x6 := nth 5 x 0 in
   let x7 := x3 - x2 in
   let sx3 := sin(x3) in
   let cx3 := cos(x3) in
   let s2x3 := sin(2 * x3) in
   let c2x3 := cos(2 * x3) in
   let sx5 := sin(x5) in
   let cx5 := cos(x5) in
   let s2x5 := sin(2 * x5) in
   let sx6 := sin(x6) in
   let sx7 := sin(x7) in
   let cx7 := cos(x7) in
   let s2x7 := sin(2 * x7) in
   let c2x7 := cos(2 * x7) in
   let s3x7 := sin(3 * x7) in
   let c3x7 := cos(3 * x7) in
   let s4x7 := sin(4 * x7) in
   let c4x7 := cos(4 * x7) in
   let c5x7 := cos(5 * x7) in
   let dml :=
       (3.31364e-1 - (1.0281e-2 + 4.692e-3 * x1) * x1) * sx5
       + (3.228e-3 - (6.4436e-2 - 2.075e-3 * x1) * x1) * cx5
       - (3.083e-3 + (2.75e-4 - 4.89e-4 * x1) * x1) * s2x5
       + 2.472e-3 * sx6
       + 1.3619e-2 * sx7
       + 1.8472e-2 * s2x7
       + 6.717e-3 * s3x7
       + 2.775e-3 * s4x7
       + 6.417e-3 * s2x7 * sx3
       + (7.275e-3 - 1.253e-3 * x1) * sx7 * sx3
       + 2.439e-3 * s3x7 * sx3
       - (3.5681e-2 + 1.208e-3 * x1) * sx7 * cx3
       - 3.767e-3 * c2x7 * sx3
       - (3.3839e-2 + 1.125e-3 * x1) * cx7 * sx3
       - 4.261e-3 * s2x7 * cx3
       + (1.161e-3 * x1 - 6.333e-3) * cx7 * cx3
       + 2.178e-3 * cx3
       - 6.675e-3 * c2x7 * cx3
       - 2.664e-3 * c3x7 * cx3
       - 2.572e-3 * sx7 * s2x3
       - 3.567e-3 * s2x7 * s2x3
       + 2.094e-3 * cx7 * c2x3
       + 3.342e-3 * c2x7 * c2x3
   in
   let dml :=  math.radians(dml) in
   let ds :=
       (3606 + (130 - 43 * x1) * x1) * sx5
       + (1289 - 580 * x1) * cx5
       - 6764 * sx7 * sx3
       - 1110 * s2x7 * sx3
       - 224 * s3x7 * sx3
       - 204 * sx3
       + (1284 + 116 * x1) * cx7 * sx3
       + 188 * c2x7 * sx3
       + (1460 + 130 * x1) * sx7 * cx3
       + 224 * s2x7 * cx3
       - 817 * cx3
       + 6074 * cx3 * cx7
       + 992 * c2x7 * cx3
       + 508 * c3x7 * cx3
       + 230 * c4x7 * cx3
       + 108 * c5x7 * cx3
       - (956 + 73 * x1) * sx7 * s2x3
       + 448 * s2x7 * s2x3
       + 137 * s3x7 * s2x3
       + (108 * x1 - 997) * cx7 * s2x3
       + 480 * c2x7 * s2x3
       + 148 * c3x7 * s2x3
       + (99 * x1 - 956) * sx7 * c2x3
       + 490 * s2x7 * c2x3
       + 158 * s3x7 * c2x3
       + 179 * c2x3
       + (1024 + 75 * x1) * cx7 * c2x3
       - 437 * c2x7 * c2x3
       - 132 * c3x7 * c2x3
   in
   let ds := ds * 1e-7 in
   let dp :=
       (7.192e-3 - 3.147e-3 * x1) * sx5
       - 4.344e-3 * sx3
       + (x1 * (1.97e-4 * x1 - 6.75e-4) - 2.0428e-2) * cx5
       + 3.4036e-2 * cx7 * sx3
       + (7.269e-3 + 6.72e-4 * x1) * sx7 * sx3
       + 5.614e-3 * c2x7 * sx3
       + 2.964e-3 * c3x7 * sx3
       + 3.7761e-2 * sx7 * cx3
       + 6.158e-3 * s2x7 * cx3
       - 6.603e-3 * cx7 * cx3
       - 5.356e-3 * sx7 * s2x3
       + 2.722e-3 * s2x7 * s2x3
       + 4.483e-3 * cx7 * s2x3
       - 2.642e-3 * c2x7 * s2x3
       + 4.403e-3 * sx7 * c2x3
       - 2.536e-3 * s2x7 * c2x3
       + 5.547e-3 * cx7 * c2x3
       - 2.689e-3 * c2x7 * c2x3
   in
   let* q := lift (pydiv (math.radians dp) s) in
   let dm := dml - q in
   let da :=
       205 * cx7
       - 263 * cx5
       + 693 * c2x7
       + 312 * c3x7
       + 147 * c4x7
       + 299 * sx7 * sx3
       + 181 * c2x7 * sx3
       + 204 * s2x7 * cx3
       + 111 * s3x7 * cx3
       - 337 * cx7 * cx3
       - 111 * c2x7 * cx3
   in
   let da := da * 1e-6 in
   ret {| dl := 0.0; dr := 0.0; dml := dml; ds := ds; dm := dm; da := da; dhl := 0.0 |}
  )%M.

Definition PertSaturn_get_data (ctx : CelestialSphera.ctx) (dt : R) : M PertRecord :=
  (
   let* oi := CelestialSphera.get_orbit_instance ctx SATURN in
   let s := oi_eccentricity oi in
   let x := CelestialSphera.aux_sun ctx in
   let x1 := nth 0 x 0 in
   let x2 := nth 1 x 0 in
   let x3 := nth 2 x 0 in
   let x4 := nth 3 x 0 in
   let x5 := nth 4 x 0 in
   let x6 := nth 5 x 0 in
   let x7 := x3 - x2 in
   let x8 := x4 - x3 in
   let sx3 := sin(x3) in
   let cx3 := cos(x3) in
   let s2x3 := sin(2 * x3) in
   let c2x3 := cos(2 * x3) in
   let sx5 := sin(x5) in
   let cx5 := cos(x5) in
   let s2x5 := sin(2 * x5) in
   let sx6 := sin(x6) in
   let sx7 := sin(x7) in
   let cx7 := cos(x7) in
   let s2x7 := sin(2 * x7) in
   let c2x7 := cos(2 * x7) in
   let s3x7 := sin(3 * x7) in
   let c3x7 := cos(3 * x7) in
   let s4x7 := sin(4 * x7) in
   let c4x7 := cos(4 * x7) in
   let c5x7 := cos(5 * x7) in
   let s3x3 := sin(3 * x3) in
   let c3x3 := cos(3 * x3) in
   let s4x3 := sin(4 * x3) in
   let c4x3 := cos(4 * x3) in
   let c2x5 := cos(2 * x5) in
   let s5x7 := sin(5 * x7) in
   let s2x8 := sin(2 * x8) in
   let c2x8 := cos(2 * x8) in
   let s3x8 := sin(3 * x8) in
   let c3x8 := cos(3 * x8) in
   let dml :=
       7.581e-3 * s2x5
       - 7.986e-3 * sx6
       - 1.48811e-1 * sx7
       - 4.0786e-2 * s2x7
       - (8.14181e-1 - (1.815e-2 - 1.6714e-2 * x1) * x1) * sx5
       - (1.0497e-2 - (1.60906e-1 - 4.1e-3 * x1) * x1) * cx5
       - 1.5208e-2 * s3x7
       - 6.339e-3 * s4x7
       - 6.244e-3 * sx3
       - 1.65e-2 * s2x7 * sx3
       + (8.931e-3 + 2.728e-3 * x1) * sx7 * sx3
       - 5.775e-3 * s3x7 * sx3
       + (8.1344e-2 + 3.206e-3 * x1) * cx7 * sx3
       + 1.5019e-2 * c2x7 * sx3
       + (8.5581e-2 + 2.494e-3 * x1) * sx7 * cx3
       + 1.4394e-2 * c2x7 * cx3
       + (2.5328e-2 - 3.117e-3 * x1) * cx7 * cx3
       + 6.319e-3 * c3x7 * cx3
       + 6.369e-3 * sx7 * s2x3
       + 9.156e-3 * s2x7 * s2x3
       + 7.525e-3 * s3x8 * s2x3
       - 5.236e-3 * cx7 * c2x3
       - 7.736e-3 * c2x7 * c2x3
       - 7.528e-3 * c3x8 * c2x3
   in
   let dml :=  math.radians(dml) in
   let ds :=
       (-7927 + (2548 + 91 * x1) * x1) * sx5
       + (13381 + (1226 - 253 * x1) * x1) * cx5
       + (248 - 121 * x1) * s2x5
       - (305 + 91 * x1) * c2x5
       + 412 * s2x7
       + 12415 * sx3
       + (390 - 617 * x1) * sx7 * sx3
       + (165 - 204 * x1) * s2x7 * sx3
       + 26599 * cx7 * sx3
       - 4687 * c2x7 * sx3
       - 1870 * c3x7 * sx3
       - 821 * c4x7 * sx3
       - 377 * c5x7 * sx3
       + 497 * c2x8 * sx3
       + (163 - 611 * x1) * cx3
       - 12696 * sx7 * cx3
       - 4200 * s2x7 * cx3
       - 1503 * s3x7 * cx3
       - 619 * s4x7 * cx3
       - 268 * s5x7 * cx3
       - (282 + 1306 * x1) * cx7 * cx3
       + (-86 + 230 * x1) * c2x7 * cx3
       + 461 * s2x8 * cx3
       - 350 * s2x3
       + (2211 - 286 * x1) * sx7 * s2x3
       - 2208 * s2x7 * s2x3
       - 568 * s3x7 * s2x3
       - 346 * s4x7 * s2x3
       - (2780 + 222 * x1) * cx7 * s2x3
       + (2022 + 263 * x1) * c2x7 * s2x3
       + 248 * c3x7 * s2x3
       + 242 * s3x8 * s2x3
       + 467 * c3x8 * s2x3
       - 490 * c2x3
       - (2842 + 279 * x1) * sx7 * c2x3
       + (128 + 226 * x1) * s2x7 * c2x3
       + 224 * s3x7 * c2x3
       + (-1594 + 282 * x1) * cx7 * c2x3
       + (2162 - 207 * x1) * c2x7 * c2x3
       + 561 * c3x7 * c2x3
       + 343 * c4x7 * c2x3
       + 469 * s3x8 * c2x3
       - 242 * c3x8 * c2x3
       - 205 * sx7 * s3x3
       + 262 * s3x7 * s3x3
       + 208 * cx7 * c3x3
       - 271 * c3x7 * c3x3
       - 382 * c3x7 * s4x3
       - 376 * s3x7 * c4x3
   in
   let ds := ds * 1e-7 in
   let dp :=
       (7.7108e-2 + (7.186e-3 - 1.533e-3 * x1) * x1) * sx5
       - 7.075e-3 * sx7
       + (4.5803e-2 - (1.4766e-2 + 5.36e-4 * x1) * x1) * cx5
       - 7.2586e-2 * cx3
       - 7.5825e-2 * sx7 * sx3
       - 2.4839e-2 * s2x7 * sx3
       - 8.631e-3 * s3x7 * sx3
       - 1.50383e-1 * cx7 * cx3
       + 2.6897e-2 * c2x7 * cx3
       + 1.0053e-2 * c3x7 * cx3
       - (1.3597e-2 + 1.719e-3 * x1) * sx7 * s2x3
       + 1.1981e-2 * s2x7 * c2x3
       - (7.742e-3 - 1.517e-3 * x1) * cx7 * s2x3
       + (1.3586e-2 - 1.375e-3 * x1) * c2x7 * c2x3
       - (1.3667e-2 - 1.239e-3 * x1) * sx7 * c2x3
       + (1.4861e-2 + 1.136e-3 * x1) * cx7 * c2x3
       - (1.3064e-2 + 1.628e-3 * x1) * c2x7 * c2x3
   in
   let* q := lift (pydiv (math.radians dp) s) in
   let dm := dml - q in
   let da :=
       572 * sx5
       - 1590 * s2x7 * cx3
       + 2933 * cx5
       - 647 * s3x7 * cx3
       + 33629 * cx7
       - 344 * s4x7 * cx3
       - 3081 * c2x7
       + 2885 * cx7 * cx3
       - 1423 * c3x7
       + (2172 + 102 * x1) * c2x7 * cx3
       - 671 * c4x7
       + 296 * c3x7 * cx3
       - 320 * c5x7
       - 267 * s2x7 * s2x3
       + 1098 * sx3
       - 778 * cx7 * s2x3
       - 2812 * sx7 * sx3
       + 495 * c2x7 * s2x3
       + 688 * s2x7 * sx3
       + 250 * c3x7 * s2x3
       - 393 * s3x7 * sx3
       - 856 * sx7 * c2x3
       - 228 * s4x7 * sx3
       + 441 * s2x7 * c2x3
       + 2138 * cx7 * sx3
       + 296 * c2x7 * c2x3
       - 999 * c2x7 * sx3
       + 211 * c3x7 * c2x3
       - 642 * c3x7 * sx3
       - 427 * sx7 * s3x3
       - 325 * c4x7 * sx3
       + 398 * s3x7 * s3x3
       - 890 * cx3
       + 344 * cx7 * c3x3
       + 2206 * sx7 * cx3
       - 427 * c3x7 * c3x3
   in
   let da := da * 1e-6 in
   let dhl :=
       7.47e-4 * cx7 * sx3
       + 1.069e-3 * cx7 * cx3
       + 2.108e-3 * s2x7 * s2x3
       + 1.261e-3 * c2x7 * s2x3
       + 1.236e-3 * s2x7 * c2x3
       - 2.075e-3 * c2x7 * c2x3
   in
   let dhl :=  math.radians(dhl) in
   ret {| dl := 0.0; dr := 0.0; dml := dml; ds := ds; dm := dm; da := da; dhl := dhl |}
  )%M.

Definition PertUranus_get_data (ctx : CelestialSphera.ctx) (dt : R) : M PertRecord :=
  (
   let t := CelestialSphera.t ctx in
   let* oi := CelestialSphera.get_orbit_instance ctx URANUS in
   let s := oi_eccentricity oi in
   let x := CelestialSphera.aux_sun ctx in
   let x1 := nth 0 x 0 in
   let x2 := nth 1 x 0 in
   let x3 := nth 2 x 0 in
   let x4 := nth 3 x 0 in
   let x6 := nth 5 x 0 in
   let x8 := reduce_rad(1.46205 + 3.81337 * t) in
   let x9 := 2 * x8 - x4 in
   let x10 := x4 - x2 in
   let x11 := x4 - x3 in
   let x12 := x8 - x4 in
   let sx9 := sin(x9) in
   let cx9 := cos(x9) in
   let s2x9 := sin(2 * x9) in
   let c2x9 := cos(2 * x9) in
   let dml :=
       (8.64319e-1 - 1.583e-3 * x1) * sx9
       + (8.2222e-2 - 6.833e-3 * x1) * cx9
       + 3.6017e-2 * s2x9
       - 3.019e-3 * c2x9
       + 8.122e-3 * sin(x6)
   in
   let dml :=  math.radians(dml) in
   let dp := 1.20303e-1 * sx9 + 6.197e-3 * s2x9 + (1.9472e-2 - 9.47e-4 * x1) * cx9 in
   let* q := lift (pydiv (math.radians dp) s) in
   let dm := dml - q in
   let ds := (163 * x1 - 3349) * sx9 + 20981 * cx9 + 1311 * c2x9 in
   let ds := ds * 1e-7 in
   let da := -3.825e-3 * cx9 in
   let dl :=
       (1.0122e-2 - 9.88e-4 * x1) * sin(x4 + x11)
       + (-3.8581e-2 + (2.031e-3 - 1.91e-3 * x1) * x1) * cos(x4 + x11)
       + (3.4964e-2 - (1.038e-3 - 8.68e-4 * x1) * x1) * cos(2 * x4 + x11)
       + 5.594e-3 * sin(x4 + 3 * x12)
       - 1.4808e-2 * sin(x10)
       - 5.794e-3 * sin(x11)
       + 2.347e-3 * cos(x11)
       + 9.872e-3 * sin(x12)
       + 8.803e-3 * sin(2 * x12)
       - 4.308e-3 * sin(3 * x12)
   in
   let sx11 := sin(x11) in
   let cx11 := cos(x11) in
   let sx4 := sin(x4) in
   let cx4 := cos(x4) in
   let s2x4 := sin(2 * x4) in
   let c2x4 := cos(2 * x4) in
   let dhl :=
       (4.58e-4 * sx11 - 6.42e-4 * cx11 - 5.17e-4 * cos(4 * x12)) * sx4
       - (3.47e-4 * sx11 + 8.53e-4 * cx11 + 5.17e-4 * sin(4 * x11)) * cx4
       + 4.03e-4 * (cos(2 * x12) * s2x4 + sin(2 * x12) * c2x4)
   in
   let dhl :=  math.radians(dhl) in
   let dr :=
       -25948
       + 4985 * cos(x10)
       - 1230 * cx4
       + 3354 * cos(x11)
       + 904 * cos(2 * x12)
       + 894 * (cos(x12) - cos(3 * x12))
       + (5795 * cx4 - 1165 * sx4 + 1388 * c2x4) * sx11
       + (1351 * cx4 + 5702 * sx4 + 1388 * s2x4) * cos(x11)
   in
   let dr := dr * 1e-6 in
   ret {| dl := dl; dr := dr; dml := dml; ds := ds; dm := dm; da := da; dhl := dhl |}
  )%M.

Definition PertNeptune_get_data (ctx : CelestialSphera.ctx) (dt : R) : M PertRecord :=
  (
   let t := CelestialSphera.t ctx in
   let* oi := CelestialSphera.get_orbit_instance ctx NEPTUNE in
   let s := oi_eccentricity oi in
   let x := CelestialSphera.aux_sun ctx in
   let x1 := nth 0 x 0 in
   let x2 := nth 1 x 0 in
   let x3 := nth 2 x 0 in
   let x4 := nth 3 x 0 in
   let x8 := reduce_rad(1.46205 + 3.81337 * t) in
   let x9 := 2 * x8 - x4 in
   let x10 := x8 - x2 in
   let x11 := x8 - x3 in
   let x12 := x8 - x4 in
   let sx9 := sin(x9) in
   let cx9 := cos(x9) in
   let s2x9 := sin(2 * x9) in
   let c2x9 := cos(2 * x9) in
   let dml :=
       (1.089e-3 * x1 - 5.89833e-1) * sx9
       + (4.658e-3 * x1 - 5.6094e-2) * cx9
       - 2.4286e-2 * s2x9
   in
   let dml :=  math.radians(dml) in
   let dp := 2.4039e-2 * sx9 - 2.5303e-2 * cx9 + 6.206e-3 * s2x9 - 5.992e-3 * c2x9 in
   let* q := lift (pydiv (math.radians dp) s) in
   let dm := dml - q in
   let ds := 4389 * sx9 + 1129 * s2x9 + 4262 * cx9 + 1089 * c2x9 in
   let ds := ds * 1e-7 in
   let da := 8189 * cx9 - 817 * sx9 + 781 * c2x9 in
   let da := da * 1e-6 in
   let s2x12 := sin(2 * x12) in
   let c2x12 := cos(2 * x12) in
   let sx8 := sin(x8) in
   let cx8 := cos(x8) in
   let dl :=
       -9.556e-3 * sin(x10)
       - 5.178e-3 * sin(x11)
       + 2.572e-3 * s2x12
       - 2.972e-3 * c2x12 * sx8
       - 2.833e-3 * s2x12 * cx8
   in
   let dhl := 3.36e-4 * c2x12 * sx8 + 3.64e-4 * s2x12 * cx8 in
   let dhl :=  math.radians(dhl) in
   let dr := -40596 + 4992 * cos(x10) + 2744 * cos(x11) + 2044 * cos(x12) + 1051 * c2x12 in
   let dr := dr * 1e-6 in
   ret {| dl := dl; dr := dr; dml := dml; ds := ds; dm := dm; da := da; dhl := dhl |}
  )%M.

Definition PertPluto_get_data (ctx : CelestialSphera.ctx) (dt : R) : M PertRecord :=
  (
   ret PertRecord_default
  )%M.

(** [PertCalculator.get_data], resolved on the class of [self]; the base
    class returns the empty record. *)
Definition get_data (self : PertCalculator) (ctx : CelestialSphera.ctx)
    (dt : R) : M PertRecord :=
  match self with
  | PertBase _ => ret PertRecord_default
  | PertMercury => PertMercury_get_data ctx dt
  | PertVenus => PertVenus_get_data ctx dt
  | PertMars => PertMars_get_data ctx dt
  | PertJupiter => PertJupiter_get_data ctx dt
  | PertSaturn => PertSaturn_get_data ctx dt
  | PertUranus => PertUranus_get_data ctx dt
  | PertNeptune => PertNeptune_get_data ctx dt
  | PertPluto => PertPluto_get_data ctx dt
  end.

(** ** planets/planet.py: the position of a planet *)

(** [HelioRecord = namedtuple("HelioRecord", "ll rpd lpd spsi cpsi rho")]. *)
Record HelioRecord := mkHelioRecord {
  h_ll : R;
  h_rpd : R;
  h_lpd : R;
  h_spsi : R;
  h_cpsi : R;
  h_rho : R
}.

Record EclipticPosition := mkEclipticPosition {
  lmbda : R;  (* geocentric ecliptic longitude, arc-degrees *)
  beta : R;   (* geocentric ecliptic latitude, arc-degrees *)
  delta : R   (* distance from the Earth, A.U. *)
}.

Definition _calculate_perturbations (self : Planet.t)
    (ctx : CelestialSphera.ctx) (dt : R) : M PertRecord :=
  get_data (Planet.pert_calculator self) ctx dt.

(** [depth]: the frames left for the Kepler solver. *)
Definition _calculate_heliocentric (depth : nat) (oi : OrbitInstance)
    (ma re lg : R) (pert : PertRecord) : Res HelioRecord :=
  (let s := oi_eccentricity oi + ds pert in
   let ma := reduce_rad (ma + dm pert) in
   let* ea := eccentric_anomaly depth s ma None in
   let* nu := true_anomaly s ea in
   let* q := pydiv ((oi_major_semiaxis oi + da pert) * (1 - s * s))
                   (1 + s * cos nu) in
   let rp := q + dr pert in
   let lp := nu + oi_perihelion oi + (dml pert - dm pert) in
   let lo := lp - oi_mean_node oi in
   let sin_lo := sin lo in
   let spsi := sin_lo * sin (oi_inclination oi) in
   let y := sin_lo * cos (oi_inclination oi) in
   let* asin_spsi := math.asin spsi in
   let psi := asin_spsi + dhl pert in
   let lpd := math.atan2 y (cos lo) + oi_mean_node oi + math.radians (dl pert) in
   let cpsi := cos psi in
   let ll := lpd - lg in
   let* rho := math.sqrt (re * re + rp * rp - 2 * re * rp * cpsi * cos ll) in
   Ok {| h_ll := ll; h_rpd := rp * cpsi; h_lpd := lpd; h_spsi := sin psi;
         h_cpsi := cpsi; h_rho := rho |})%res.

(** [_get_corrected_helio(ctx, oi, lg, rg, dt=0, rho=0)]; the method calls
    itself, [depth] frames are available for it. *)
Fixpoint _get_corrected_helio (depth : nat) (self : Planet.t)
    (ctx : CelestialSphera.ctx) (oi : OrbitInstance) (lg rg dt rho : R)
    : M HelioRecord :=
  match depth with
  | O => lift (Raise RecursionError)
  | S depth' =>
      (let* ma := CelestialSphera.get_mean_anomaly ctx (Planet.id self) (Some dt) in
       let* pert := _calculate_perturbations self ctx dt in
       let* h := lift (_calculate_heliocentric depth' oi ma rg lg pert) in
       if Req_dec_T dt 0 then
         _get_corrected_helio depth' self ctx oi lg rg
           (h_rho h * 5.775518e-3) (h_rho h)
       else
         ret {| h_ll := h_ll h; h_rpd := h_rpd h; h_lpd := h_lpd h;
                h_spsi := h_spsi h; h_cpsi := h_cpsi h; h_rho := rho |})%M
  end.

Definition geocentric_position (depth : nat) (self : Planet.t)
    (ctx : CelestialSphera.ctx) : M EclipticPosition :=
  (let sg := CelestialSphera.sun_geo ctx in
   let lg := math.radians (phi sg) + math.pi in
   let rsn := rho sg in
   let oi := OElements.instantiate (Planet.orbit self) (CelestialSphera.t ctx) in
   let* h := _get_corrected_helio depth self ctx oi lg rsn 0 0 in
   lift
     (let sll := sin (h_ll h) in
      let cll := cos (h_ll h) in
      let lam :=
        if Planet.is_inner self
        then math.atan2 (-1 * h_rpd h * sll) (rsn - h_rpd h * cll) + lg + math.pi
        else math.atan2 (rsn * sll) (h_rpd h - rsn * cll) + h_lpd h in
      let lam := reduce_rad lam in
      let* q := pydiv (h_rpd h * h_spsi h * sin (lam - h_lpd h))
                      (h_cpsi h * rsn * sll) in
      let bet := atan q in
      let* lam_bet :=
        if CelestialSphera.apparent ctx then
          let lam := lam + math.radians (dpsi (CelestialSphera.nutation ctx)) in
          let a := lg - lam in
          let* q := pydiv (9.9387e-5 * cos a) (cos bet) in
          let lam := lam - q in
          let lam := reduce_rad lam in
          let bet := bet - 9.9387e-5 * sin a * sin bet in
          Ok (lam, bet)
        else Ok (lam, bet) in
      Ok {| lmbda := math.degrees (fst lam_bet);
            beta := math.degrees (snd lam_bet);
            delta := h_rho h |})%res)%M.

(** [geocentric_position] with the orbit taken from the context's cache,
    [ctx.get_orbit_instance(self.id)], instead of the direct instantiation;
    nothing else differs. *)
Definition geocentric_position_cached (depth : nat) (self : Planet.t)
    (ctx : CelestialSphera.ctx) : M EclipticPosition :=
  (let sg := CelestialSphera.sun_geo ctx in
   let lg := math.radians (phi sg) + math.pi in
   let rsn := rho sg in
   let* oi := CelestialSphera.get_orbit_instance ctx (Planet.id self) in
   let* h := _get_corrected_helio depth self ctx oi lg rsn 0 0 in
   lift
     (let sll := sin (h_ll h) in
      let cll := cos (h_ll h) in
      let lam :=
        if Planet.is_inner self
        then math.atan2 (-1 * h_rpd h * sll) (rsn - h_rpd h * cll) + lg + math.pi
        else math.atan2 (rsn * sll) (h_rpd h - rsn * cll) + h_lpd h in
      let lam := reduce_rad lam in
      let* q := pydiv (h_rpd h * h_spsi h * sin (lam - h_lpd h))
                      (h_cpsi h * rsn * sll) in
      let bet := atan q in
      let* lam_bet :=
        if CelestialSphera.apparent ctx then
          let lam := lam + math.radians (dpsi (CelestialSphera.nutation ctx)) in
          let a := lg - lam in
          let* q := pydiv (9.9387e-5 * cos a) (cos bet) in
          let lam := lam - q in
          let lam := reduce_rad lam in
          let bet := bet - 9.9387e-5 * sin a * sin bet in
          Ok (lam, bet)
        else Ok (lam, bet) in
      Ok {| lmbda := math.degrees (fst lam_bet);
            beta := math.degrees (snd lam_bet);
            delta := h_rho h |})%res)%M.

(** * Vocabulary of the properties *)

(** ** The orbit cache *)

(** What [_instantiate_orbit] computes for [id] in the context [ctx]. *)
Definition instantiated (ctx : CelestialSphera.ctx) (id : PlanetId)
    : OrbitInstance :=
  OElements.instantiate (Planet.orbit (Planet.for_id id)) (CelestialSphera.t ctx).

(** How often [_instantiate_orbit] was called with [id]. *)
Definition call_count (id : PlanetId) (st : Store) : nat :=
  count_occ PlanetId_eq_dec (calls st) id.

(** The stores a context can be in: the one it is created with, and any store
    a call of [get_orbit_instance] leaves. *)
Inductive reachable (ctx : CelestialSphera.ctx) : Store -> Prop :=
| reachable_fresh : reachable ctx fresh
| reachable_get id st :
    reachable ctx st ->
    reachable ctx (snd (CelestialSphera.get_orbit_instance ctx id st)).

(** Every cached entry is the instance of its planet at the context's time
    and was instantiated exactly once; nothing else was ever instantiated. *)
Definition store_ok (ctx : CelestialSphera.ctx) (st : Store) : Prop :=
  forall id,
    match cache st !! id with
    | Some oi => oi = instantiated ctx id /\ call_count id st = 1%nat
    | None => call_count id st = 0%nat
    end.

(** ** The Kepler solver *)

Definition residual (s m ea : R) : R := ea - (s * sin ea) - m.

(** One Newton-Raphson update, as the recursive call computes it. *)
Definition newton (s m ea : R) : R :=
  ea - residual s m ea / (1 - (s * cos ea)).

(** The estimate the solver holds after [k] updates. *)
Definition estimate (s m : R) (k : nat) : R := Nat.iter k (newton s m) m.

(** The solver is given an iteration ceiling when, with more than [B] frames
    at hand, it never runs out of them. *)
Definition iteration_bound (B : nat) : Prop :=
  forall s m depth, (B < depth)%nat ->
    eccentric_anomaly depth s m None <> Raise RecursionError.

(** An eccentricity and a mean anomaly on which Newton's iteration started
    at [E = M] is caught by an attracting cycle of period two: the estimates
    alternate between an arc around 0 and an arc around 1/2, where the
    residual stays near 0.046 and 0.022. *)
Definition s_cycle : R := 1.09.
Definition m_cycle : R := -0.045.

Definition low_arc (E : R) : Prop := -0.045 <= E <= 0.045.
Definition high_arc (E : R) : Prop := 0.499 <= E <= 0.507.

(** Numerator of Newton's update once it is put on one fraction:
    [E - (E - s sin E - m) / (1 - s cos E)]
    [= (s (sin E - E cos E) + m) / (1 - s cos E)]. *)
Definition sin_less_arc (E : R) : R := sin E - E * cos E.

(** ** The light-time correction *)

(** One heliocentric pass with the delay [dt]: the first three statements of
    [_get_corrected_helio]. *)
Definition helio_pass (depth : nat) (self : Planet.t)
    (ctx : CelestialSphera.ctx) (oi : OrbitInstance) (lg rg dt : R)
    : M HelioRecord :=
  (let* ma := CelestialSphera.get_mean_anomaly ctx (Planet.id self) (Some dt) in
   let* pert := _calculate_perturbations self ctx dt in
   lift (_calculate_heliocentric depth oi ma rg lg pert))%M.

(** [HelioRecord(h.ll, h.rpd, h.lpd, h.spsi, h.cpsi, rho)]. *)
Definition with_rho (h : HelioRecord) (rho : R) : HelioRecord :=
  {| h_ll := h_ll h; h_rpd := h_rpd h; h_lpd := h_lpd h; h_spsi := h_spsi h;
     h_cpsi := h_cpsi h; h_rho := rho |}.

(** ** Sample inputs *)

Definition ctx_at (t : R) (sun_rho : R) : CelestialSphera.ctx :=
  CelestialSphera.make t 0 (mkPolar 0 sun_rho) 0 (mkNutation 0 0) false.

(** A [Planet] built with the constructor rather than taken from the
    registry: a circular orbit of radius [a] in the plane of the ecliptic,
    no perturbations. *)
Definition circular (id : PlanetId) (a : R) : Planet.t :=
  Planet.make id "circular" false
    (OElements.make (MLTerms.make 0 0 0 0) (Terms.make 0 []) (Terms.make 0 [])
       (Terms.make 0 []) (Terms.make 0 []) a)
    PertPluto.

(** ** The auxiliary angles *)

(** Every element of [aux_sun] lies in [0, 2 PI). *)
Definition aux_all_reduced (self : CelestialSphera.ctx) : Prop :=
  Forall (fun x => 0 <= x < PI2) (CelestialSphera.aux_sun self).

(** ** Polynomials *)

(** [c0 * t^i + c1 * t^(i+1) + ...] for the coefficients [c0; c1; ...]. *)
Fixpoint power_sum (t : R) (i : nat) (coeffs : list R) : R :=
  match coeffs with
  | [] => 0
  | c :: coeffs' => c * t ^ i + power_sum t (S i) coeffs'
  end.

(** ** Computations on the store *)

(** The computation [c] takes consistent stores to consistent stores. *)
Definition keeps_ok (ctx : CelestialSphera.ctx) {A} (c : M A) : Prop :=
  forall st, store_ok ctx st -> store_ok ctx (snd (c st)).

(** The computation [c] raises nothing, whatever the store. *)
Definition never_fails {A} (c : M A) : Prop :=
  forall st, exists a st', c st = (Ok a, st').

(** ** Size of the perturbations of the inner planets *)

(** Sums of the absolute values of the coefficients of the series for
    [dl] (degrees), [dr] (A.U.) and [dm] (degrees, before the conversion to
    radians) of Mercury, Venus and Mars. *)
Definition inner_pert_bounds (pc : PertCalculator) : option (R * R * R) :=
  match pc with
  | PertMercury => Some (0.00476, 0.000023353, 0)
  | PertVenus => Some (0.00825, 0.000063582, 7.7e-4)
  | PertMars => Some (0.03004, 0.000222361, 0.02066)
  | _ => None
  end.

(** ** Convergence of the Kepler solver *)

(** A number of Newton updates that suffices on the part of the domain
    where the iteration is monotone. *)
Definition enough_updates : nat := Z.to_nat 50000000.

(** ** The wrap of angles on binary64 numbers *)

(** [mathutils.py] and [planets/orbit.py] once more, over the binary64
    numbers: [+], [-], [*] and [/] round to nearest, ties to even, as the
    interpreter's do; decimal constants denote the nearest binary64 number. *)
Module F64.

Import Floats.
#[local] Open Scope float_scope.
#[local] Set Warnings "-inexact-float".

(** [math.pi]. *)
Definition pi : float := 0x1.921fb54442d18p+1.

Definition signed_zero (s : bool) : float := if s then -0 else 0.

(** [math.fmod(x, y)]: the remainder of [x / y] truncated, computed without
    rounding, with the sign of [x]; a "math domain error" for an infinite
    [x] or a zero [y]. *)
Definition fmod (x y : float) : Res float :=
  match Prim2SF x, Prim2SF y with
  | S754_nan, _ | _, S754_nan => Ok nan
  | S754_infinity _, _ | _, S754_zero _ => Raise ValueError
  | _, S754_infinity _ | S754_zero _, _ => Ok x
  | S754_finite sx mx ex, S754_finite _ my ey =>
      let e := Z.min ex ey in
      let r := ((Z.pos mx * 2 ^ (ex - e)) mod (Z.pos my * 2 ^ (ey - e)))%Z in
      Ok (SF2Prim (binary_normalize prec emax (if sx then - r else r)%Z e sx))
  end.

(** [math.modf(x)]: fractional and integer part, both with the sign of [x]. *)
Definition modf (x : float) : float * float :=
  match Prim2SF x with
  | S754_nan => (nan, nan)
  | S754_infinity s => (signed_zero s, x)
  | S754_zero _ => (x, x)
  | S754_finite s m e =>
      if (0 <=? e)%Z then (signed_zero s, x)
      else
        let q := (Z.pos m / 2 ^ (- e))%Z in
        let i := SF2Prim (binary_normalize prec emax (if s then - q else q)%Z 0 s) in
        (if x =? i then signed_zero s else x - i, i)
  end.

(** [math.radians(x)]. *)
Definition radians (x : float) : float := x * (pi / 180).

Definition PI2 : float := pi * 2.

Definition polynome (t a : float) (args : list float) : float :=
  match rev (a :: args) with
  | [] => 0
  | x :: xs => fold_left (fun a b => t * a + b) xs x
  end.

Definition to_range (x r : float) : Res float :=
  (let* a := fmod x r in
   Ok (if a <? 0 then a + r else a))%res.

Definition reduce_deg (x : float) : Res float := to_range x 360.

Definition reduce_rad (x : float) : Res float := to_range x PI2.

Definition frac (x : float) : float := fst (modf x).

Definition frac360 (x : float) : float := frac x * 360.

Module Terms.

Record t := make { a0 : float; args : list float }.

Definition assemble (self : t) (t : float) : Res float :=
  reduce_deg (polynome t (a0 self) (args self)).

End Terms.

Module MLTerms.

Record t := make { a : float; b : float; c : float; d : float }.

Definition assemble (self : t) (t : float) : Res float :=
  let b := frac360 (b self * t) in
  reduce_deg (a self + b + (d self * t + c self) * t * t).

End MLTerms.

Record OrbitInstance := mkOrbitInstance {
  oi_perihelion : float;
  oi_eccentricity : float;
  oi_mean_node : float;
  oi_inclination : float;
  oi_major_semiaxis : float;
  oi_mean_anomaly : float;
  oi_daily_motion : float
}.

Module OElements.

Record t := make {
  mean_longitude : MLTerms.t;
  perihelion : Terms.t;
  eccentricity : Terms.t;
  inclination : Terms.t;
  mean_node : Terms.t;
  major_semiaxis : float
}.

Definition daily_motion (self : t) : float :=
  MLTerms.b (mean_longitude self) * 9.856263e-3
  + (MLTerms.c (mean_longitude self) + MLTerms.d (mean_longitude self)) / 36525.

Definition assemble_mean_anomaly (self : t) (t : float) : Res float :=
  (let* ml := MLTerms.assemble (mean_longitude self) t in
   let* ph := Terms.assemble (perihelion self) t in
   reduce_deg (ml - ph))%res.

Definition instantiate (self : t) (t : float) : Res OrbitInstance :=
  (let* ph := Terms.assemble (perihelion self) t in
   let* ec := Terms.assemble (eccentricity self) t in
   let* nd := Terms.assemble (mean_node self) t in
   let* inc := Terms.assemble (inclination self) t in
   let* ma := assemble_mean_anomaly self t in
   Ok {| oi_perihelion := radians ph;
         oi_eccentricity := ec;
         oi_mean_node := radians nd;
         oi_inclination := radians inc;
         oi_major_semiaxis := major_semiaxis self;
         oi_mean_anomaly := radians ma;
         oi_daily_motion := radians (daily_motion self) |})%res.

End OElements.


End F64.

(** * Properties *)

(** ** Arithmetic of [mathutils] *)

Lemma trunc_nonneg (x : R) :
  0 <= x -> IZR (math.trunc x) <= x < IZR (math.trunc x) + 1.
Proof.
  intros Hx. unfold math.trunc.
  destruct (Rle_lt_dec 0 x) as [_|H]; [|lra].
  destruct (base_Int_part x). lra.
Qed.

Lemma trunc_neg (x : R) :
  x < 0 -> IZR (math.trunc x) - 1 < x <= IZR (math.trunc x).
Proof.
  intros Hx. unfold math.trunc.
  destruct (Rle_lt_dec 0 x) as [H|_]; [lra|].
  destruct (base_Int_part (- x)). rewrite opp_IZR. lra.
Qed.

Lemma fmod_nonneg (x r : R) :
  0 < r -> 0 <= x -> 0 <= math.fmod x r < r.
Proof.
  intros Hr Hx. unfold math.fmod.
  assert (Hq : 0 <= x / r) by (apply Rmult_le_pos; [lra|left; now apply Rinv_0_lt_compat]).
  destruct (trunc_nonneg _ Hq) as [H1 H2].
  assert (E : x = x / r * r) by (field; lra).
  split.
  - apply (Rmult_le_compat_r r) in H1; lra.
  - apply (Rmult_lt_compat_r r) in H2; lra.
Qed.

Lemma fmod_neg (x r : R) :
  0 < r -> x < 0 -> - r < math.fmod x r <= 0.
Proof.
  intros Hr Hx. unfold math.fmod.
  assert (Hq : x / r < 0).
  { unfold Rdiv. rewrite <- (Rmult_0_l (/ r)).
    apply Rmult_lt_compat_r; [now apply Rinv_0_lt_compat|lra]. }
  destruct (trunc_neg _ Hq) as [H1 H2].
  assert (E : x = x / r * r) by (field; lra).
  split.
  - apply (Rmult_lt_compat_r r) in H1; lra.
  - apply (Rmult_le_compat_r r) in H2; lra.
Qed.

Lemma to_range_bounds (x r : R) : 0 < r -> 0 <= to_range x r < r.
Proof.
  intros Hr. unfold to_range.
  destruct (Rle_lt_dec 0 x) as [Hx|Hx].
  - pose proof (fmod_nonneg x r Hr Hx).
    destruct (Rlt_dec (math.fmod x r) 0); lra.
  - pose proof (fmod_neg x r Hr Hx).
    destruct (Rlt_dec (math.fmod x r) 0); lra.
Qed.

Lemma reduce_deg_bounds (x : R) : 0 <= reduce_deg x < 360.
Proof. apply to_range_bounds. lra. Qed.

Lemma PI2_pos : 0 < PI2.
Proof. unfold PI2, math.pi. pose proof PI_RGT_0. lra. Qed.

Lemma reduce_rad_bounds (x : R) : 0 <= reduce_rad x < PI2.
Proof. apply to_range_bounds, PI2_pos. Qed.

(** ** Calls that succeed *)

Lemma pydiv_Ok (x y : R) : y <> 0 -> pydiv x y = Ok (x / y).
Proof. intros H. unfold pydiv. destruct (Req_dec_T y 0); [contradiction|reflexivity]. Qed.

Lemma sqrt_Ok (x : R) : 0 <= x -> math.sqrt x = Ok (sqrt x).
Proof. intros H. unfold math.sqrt. destruct (Rlt_dec x 0); [lra|reflexivity]. Qed.

Lemma asin_Ok (x : R) : Rabs x <= 1 -> math.asin x = Ok (asin x).
Proof. intros H. unfold math.asin. destruct (Rlt_dec 1 (Rabs x)); [lra|reflexivity]. Qed.

(** ** Orbital elements *)

Section Wrap64.

Import Floats.
#[local] Open Scope float_scope.
#[local] Set Warnings "-inexact-float".

(** On binary64 numbers [to_range] reaches the end of the range it is
    documented to exclude: [fmod(-1e-20, 360)] is [-1e-20], and
    [-1e-20 + 360] rounds to [360.0]. *)
Lemma to_range_reaches_range : F64.to_range (-1e-20) 360 = Ok 360.
Proof. vm_compute. reflexivity. Qed.


End Wrap64.

(** ** Perturbations *)

(** C9: for every context, delay and store, Pluto's calculator returns the
    record whose seven corrections are zero (and touches nothing). *)
Theorem PertPluto_zero (ctx : CelestialSphera.ctx) (dt : R) (st : Store) :
  exists r,
    get_data PertPluto ctx dt st = (Ok r, st)
    /\ dl r = 0 /\ dr r = 0 /\ dml r = 0 /\ ds r = 0 /\ dm r = 0
    /\ da r = 0 /\ dhl r = 0.
Proof.
  exists PertRecord_default. cbn. repeat split; lra.
Qed.

(** ** The auxiliary angles of a context *)

(** C8, as stated, fails: at [t = 100] the first auxiliary element is
    [100 / 5 + 0.1 = 20.1], which is not below [2 PI]. *)
Lemma aux_sun_not_all_reduced : ~ aux_all_reduced (ctx_at 100 1).
Proof.
  unfold aux_all_reduced. intros H.
  inversion H as [|x l [_ Hlt] _]; subst.
  cbn in Hlt. unfold PI2, math.pi in Hlt.
  pose proof PI_4. lra.
Qed.

(** C8, amended: [aux[0] = t / 5 + 0.1] is linear in [t] and stored as it
    is; [aux[1]], [aux[2]], [aux[3]] are linear functions of [t], each
    reduced on its own to [0, 2 PI); [aux[4]] and [aux[5]] are the
    combinations [5 aux[2] - 2 aux[1]] and [2 aux[1] - 6 aux[2] + 3 aux[3]]
    of the reduced angles, stored without a further reduction. *)
Theorem aux_sun_shape (self : CelestialSphera.ctx) :
  let t := CelestialSphera.t self in
  let x1 := reduce_rad (4.14473 + 5.29691e1 * t) in
  let x2 := reduce_rad (4.641118 + 2.132991e1 * t) in
  let x3 := reduce_rad (4.250177 + 7.478172 * t) in
  CelestialSphera.aux_sun self
  = [t / 5 + 0.1; x1; x2; x3; 5 * x2 - 2 * x1; 2 * x1 - 6 * x2 + 3 * x3]
  /\ 0 <= x1 < PI2 /\ 0 <= x2 < PI2 /\ 0 <= x3 < PI2.
Proof.
  cbv zeta. split; [reflexivity|].
  repeat split; apply reduce_rad_bounds.
Qed.

(** ** The Kepler solver and the true anomaly *)

Lemma eccentric_anomaly_None (depth : nat) (s m : R) :
  eccentric_anomaly depth s m None = eccentric_anomaly depth s m (Some m).
Proof. destruct depth; reflexivity. Qed.

Lemma eccentric_anomaly_step (depth : nat) (s m ea : R) :
  ~ Rabs (residual s m ea) < _DELTA ->
  1 - (s * cos ea) <> 0 ->
  eccentric_anomaly (S depth) s m (Some ea)
  = eccentric_anomaly depth s m (Some (newton s m ea)).
Proof.
  intros Hres Hden. cbn. unfold math.fabs. fold (residual s m ea).
  destruct (Rlt_dec _ _) as [H|_]; [contradiction|].
  unfold pydiv. destruct (Req_dec_T _ _) as [H|_]; [contradiction|].
  reflexivity.
Qed.

Lemma eccentric_anomaly_stop (depth : nat) (s m ea : R) :
  Rabs (residual s m ea) < _DELTA ->
  eccentric_anomaly (S depth) s m (Some ea) = Ok ea.
Proof.
  intros Hres. cbn. unfold math.fabs. fold (residual s m ea).
  destruct (Rlt_dec _ _) as [_|H]; [reflexivity|contradiction].
Qed.

(** Whatever the solver returns passes its stopping test. *)
Lemma eccentric_anomaly_sound (depth : nat) (s m : R) (_ea : option R) (E : R) :
  eccentric_anomaly depth s m _ea = Ok E ->
  Rabs (E - s * sin E - m) < _DELTA.
Proof.
  revert _ea. induction depth as [|depth IH]; intros _ea; [discriminate|].
  cbn. unfold math.fabs.
  destruct (Rlt_dec _ _) as [H|_].
  - intros [= <-]. exact H.
  - unfold pydiv. destruct (Req_dec_T _ _); [discriminate|].
    cbn. apply IH.
Qed.

(** C7, as stated, fails: with eccentricity 1 and mean anomaly 0 the Kepler
    solver returns 0 from its first call; it raises nothing. *)
Lemma eccentric_anomaly_parabolic_returns :
  eccentric_anomaly 1 1 0 None = Ok 0.
Proof.
  rewrite eccentric_anomaly_None. apply eccentric_anomaly_stop.
  unfold residual, _DELTA. rewrite sin_0.
  replace (0 - 1 * 0 - 0) with 0 by ring. rewrite Rabs_R0. lra.
Qed.

(** C7, amended: for an eccentricity above 1 [true_anomaly] fails with the
    math domain error of [sqrt], whatever the angle, and for the
    eccentricity 1 with [ZeroDivisionError]; the Kepler solver makes no
    check of the eccentricity: if [|e sin M| < 1e-7] it returns [M] at once. *)
Theorem true_anomaly_domain (e : R) :
  1 <= e ->
  (forall E, 1 < e -> true_anomaly e E = Raise ValueError)
  /\ (forall E, e = 1 -> true_anomaly e E = Raise ZeroDivisionError)
  /\ (forall depth M, Rabs (e * sin M) < _DELTA ->
        eccentric_anomaly (S depth) e M None = Ok M).
Proof.
  intros He. repeat split.
  - intros E Hgt. unfold true_anomaly, pydiv.
    destruct (Req_dec_T (1 - e) 0) as [H|H]; [lra|]. cbn.
    unfold math.sqrt.
    destruct (Rlt_dec ((1 + e) / (1 - e)) 0) as [_|Hn]; [reflexivity|].
    exfalso. apply Hn.
    replace ((1 + e) / (1 - e)) with (- ((1 + e) * / (e - 1))) by (field; lra).
    assert (0 < / (e - 1)) by (apply Rinv_0_lt_compat; lra).
    assert (0 < (1 + e) * / (e - 1)) by (apply Rmult_lt_0_compat; lra).
    lra.
  - intros E ->. unfold true_anomaly, pydiv.
    destruct (Req_dec_T (1 - 1) 0) as [_|H]; [reflexivity|lra].
  - intros depth M HM. rewrite eccentric_anomaly_None.
    apply eccentric_anomaly_stop. unfold residual.
    replace (M - e * sin M - M) with (- (e * sin M)) by ring.
    now rewrite Rabs_Ropp.
Qed.

Lemma true_anomaly_domain_witness :
  (forall E, 1 < 2 -> true_anomaly 2 E = Raise ValueError)
  /\ (forall E, 2 = 1 -> true_anomaly 2 E = Raise ZeroDivisionError)
  /\ (forall depth M, Rabs (2 * sin M) < _DELTA ->
        eccentric_anomaly (S depth) 2 M None = Ok M).
Proof. apply (true_anomaly_domain 2). lra. Defined.
(** *** A run of the solver that never converges *)

Lemma INR_fact_Z (n : nat) : INR (fact n) = IZR (Z.of_nat (fact n)).
Proof. apply INR_IZR_INZ. Qed.

(** Turns the Taylor bounds [sin_lb], [sin_ub], [cos_lb] and [cos_ub] of the
    library into polynomials with numeric coefficients. *)
Ltac unfold_trig_approx :=
  unfold sin_lb, sin_ub, cos_lb, cos_ub, sin_approx, cos_approx, sum_f_R0,
    sin_term, cos_term;
  rewrite ?INR_fact_Z;
  cbn [Nat.mul Nat.add];
  repeat match goal with
         | |- context [Z.of_nat (fact ?n)] =>
             let v := eval vm_compute in (Z.of_nat (fact n)) in
             change (Z.of_nat (fact n)) with v
         end;
  cbn [pow].

Lemma trig_enclosures :
  sin 0.507 <= 0.48556 /\ 0.87420 <= cos 0.507
  /\ 0.47854 <= sin 0.499 /\ cos 0.499 <= 0.87807.
Proof.
  pose proof PI2_1 as HPI.
  assert (H1 := SIN 0.507 ltac:(lra) ltac:(lra)).
  assert (H2 := COS 0.507 ltac:(lra) ltac:(lra)).
  assert (H3 := SIN 0.499 ltac:(lra) ltac:(lra)).
  assert (H4 := COS 0.499 ltac:(lra) ltac:(lra)).
  revert H1 H2 H3 H4. unfold_trig_approx. intros H1 H2 H3 H4.
  repeat split; lra.
Qed.

(** The sine lies below its tangents on [0, PI]. *)
Lemma sin_below_tangent (x y : R) :
  0 <= x <= PI -> 0 <= y <= PI -> sin y <= sin x + cos x * (y - x).
Proof.
  intros Hx Hy.
  destruct (Rtotal_order x y) as [Hlt | [-> | Hgt]].
  - destruct (MVT_cor2 sin cos x y Hlt) as (c & E & Hc).
    { intros; apply derivable_pt_lim_sin. }
    assert (cos c < cos x) by (apply cos_decreasing_1; lra).
    nra.
  - lra.
  - destruct (MVT_cor2 sin cos y x Hgt) as (c & E & Hc).
    { intros; apply derivable_pt_lim_sin. }
    assert (cos x < cos c) by (apply cos_decreasing_1; lra).
    nra.
Qed.

Lemma sin_sqr_le (x : R) : sin x * sin x <= x * x.
Proof.
  destruct (Rle_lt_dec 1 (Rabs x)) as [Hbig | Hsmall].
  - pose proof (SIN_bound x). pose proof (Rabs_pos x).
    assert (x * x = Rabs x * Rabs x).
    { unfold Rabs. destruct (Rcase_abs x); ring. }
    nra.
  - apply Rabs_def2 in Hsmall. pose proof PI2_1.
    destruct (Rtotal_order x 0) as [Hneg | [-> | Hpos]].
    + assert (0 < sin (- x)) by (apply sin_gt_0; lra).
      assert (sin (- x) < - x) by (apply sin_lt_x; lra).
      rewrite sin_neg in *. nra.
    + rewrite sin_0. lra.
    + assert (0 < sin x) by (apply sin_gt_0; lra).
      assert (sin x < x) by (apply sin_lt_x; lra).
      nra.
Qed.

Lemma cos_above_parabola (x : R) : 1 - x * x / 2 <= cos x.
Proof.
  replace x with (2 * (x / 2)) at 3 by field.
  rewrite cos_2a_sin. pose proof (sin_sqr_le (x / 2)). nra.
Qed.

(** [sin E - E cos E] grows with [E] on [0, PI]. *)
Lemma sin_less_arc_mono (x y : R) :
  0 <= x -> x <= y -> y <= PI -> sin_less_arc x <= sin_less_arc y.
Proof.
  intros Hx Hxy Hy. unfold sin_less_arc.
  pose proof (sin_below_tangent y x ltac:(lra) ltac:(lra)) as Ht.
  assert (Hc : cos y <= cos x) by (apply cos_decr_1; lra).
  nra.
Qed.

Lemma sin_less_arc_small (x : R) :
  0 <= x <= 1 -> 0 <= sin_less_arc x <= x * x * x / 2.
Proof.
  intros Hx. pose proof PI2_1. split.
  - replace 0 with (sin_less_arc 0).
    + apply sin_less_arc_mono; lra.
    + unfold sin_less_arc. rewrite sin_0. ring.
  - unfold sin_less_arc.
    assert (sin x <= x).
    { destruct Hx as [[Hx | <-] _]; [left; now apply sin_lt_x|rewrite sin_0; lra]. }
    pose proof (cos_above_parabola x). nra.
Qed.

Lemma sin_less_arc_opp (x : R) : sin_less_arc (- x) = - sin_less_arc x.
Proof. unfold sin_less_arc. rewrite sin_neg, cos_neg. ring. Qed.

Lemma sin_less_arc_low (E : R) :
  low_arc E -> -0.0000456 <= sin_less_arc E <= 0.0000456.
Proof.
  unfold low_arc. intros HE.
  destruct (Rle_lt_dec 0 E) as [Hpos | Hneg].
  - pose proof (sin_less_arc_small E ltac:(lra)) as [H0 H1].
    assert (E * E * E <= 0.045 * 0.045 * 0.045).
    { assert (E * E <= 0.045 * 0.045) by nra. nra. }
    lra.
  - pose proof (sin_less_arc_small (- E) ltac:(lra)) as [H0 H1].
    rewrite sin_less_arc_opp in H0, H1.
    assert (- E * - E * - E <= 0.045 * 0.045 * 0.045).
    { assert (- E * - E <= 0.045 * 0.045) by nra. nra. }
    lra.
Qed.

Lemma newton_fraction (s m E : R) :
  1 - s * cos E <> 0 ->
  newton s m E = (s * sin_less_arc E + m) / (1 - s * cos E).
Proof. intros HD. unfold newton, residual, sin_less_arc. now field. Qed.

Lemma residual_fraction (s m E : R) :
  residual s m E = E * (1 - s * cos E) - s * sin_less_arc E - m.
Proof. unfold residual, sin_less_arc. ring. Qed.

(** On the arc around 0 the stopping test fails, the divisor is close to
    [-0.09], and Newton's update leads into the arc around 1/2. *)
Lemma cycle_low (E : R) :
  low_arc E ->
  ~ Rabs (residual s_cycle m_cycle E) < _DELTA
  /\ 1 - s_cycle * cos E <> 0
  /\ high_arc (newton s_cycle m_cycle E).
Proof.
  intros HE. pose proof (sin_less_arc_low E HE) as Hh.
  unfold low_arc in HE.
  pose proof (cos_above_parabola E) as Hc. pose proof (COS_bound E) as [_ Hc1].
  assert (HE2 : E * E <= 0.045 * 0.045) by nra.
  assert (HD : -0.09 <= 1 - s_cycle * cos E <= -0.08889) by (unfold s_cycle; lra).
  assert (HD0 : 1 - s_cycle * cos E <> 0) by lra.
  split; [|split; [exact HD0|]].
  - rewrite residual_fraction. unfold _DELTA, m_cycle.
    set (D := 1 - s_cycle * cos E) in *. unfold s_cycle.
    assert (-0.00405 <= E * D <= 0.00405) by nra.
    intros Habs. apply Rabs_def2 in Habs. lra.
  - rewrite newton_fraction by exact HD0. unfold high_arc, m_cycle.
    set (D := 1 - s_cycle * cos E) in *. unfold s_cycle.
    set (n := 1.09 * sin_less_arc E + -0.045).
    assert (Hn : -0.0450498 <= n <= -0.0449502) by (unfold n; lra).
    assert (HDi : / D < 0) by (apply Rinv_lt_0_compat; lra).
    assert (Hq : n / D * D = n) by (field; lra).
    split.
    + apply Rnot_lt_le. intros Hlt. nra.
    + apply Rnot_lt_le. intros Hlt. nra.
Qed.

(** On the arc around 1/2 the stopping test fails, the divisor is close to
    [0.044], and Newton's update leads back into the arc around 0. *)
Lemma cycle_high (E : R) :
  high_arc E ->
  ~ Rabs (residual s_cycle m_cycle E) < _DELTA
  /\ 1 - s_cycle * cos E <> 0
  /\ low_arc (newton s_cycle m_cycle E).
Proof.
  unfold high_arc. intros HE. pose proof PI2_1 as HPI.
  destruct trig_enclosures as (Hs2 & Hc2 & Hs1 & Hc1).
  assert (Hh1 : sin_less_arc 0.499 <= sin_less_arc E)
    by (apply sin_less_arc_mono; lra).
  assert (Hh2 : sin_less_arc E <= sin_less_arc 0.507)
    by (apply sin_less_arc_mono; lra).
  assert (HcE : cos E <= cos 0.499) by (apply cos_decr_1; lra).
  assert (HsE : sin E <= sin 0.507) by (apply sin_incr_1; lra).
  unfold sin_less_arc in Hh1 at 1. unfold sin_less_arc in Hh2 at 2.
  assert (HD : 0.0429 <= 1 - s_cycle * cos E) by (unfold s_cycle; lra).
  assert (HD0 : 1 - s_cycle * cos E <> 0) by lra.
  split; [|split; [exact HD0|]].
  - unfold residual, _DELTA, s_cycle, m_cycle.
    intros Habs. apply Rabs_def2 in Habs. lra.
  - rewrite newton_fraction by exact HD0. unfold low_arc, m_cycle.
    set (D := 1 - s_cycle * cos E) in *. unfold s_cycle.
    set (n := 1.09 * sin_less_arc E + -0.045).
    assert (Hn : -0.00099 <= n <= 0.00116) by (unfold n; lra).
    assert (Hq : n / D * D = n) by (field; lra).
    split.
    + apply Rnot_lt_le. intros Hlt. nra.
    + apply Rnot_lt_le. intros Hlt. nra.
Qed.

Lemma m_cycle_low : low_arc m_cycle.
Proof. unfold low_arc, m_cycle. lra. Qed.

Lemma cycle_exhausts (depth : nat) (ea : R) :
  low_arc ea \/ high_arc ea ->
  eccentric_anomaly depth s_cycle m_cycle (Some ea) = Raise RecursionError.
Proof.
  revert ea. induction depth as [|depth IH]; intros ea Hea; [reflexivity|].
  destruct Hea as [Hea | Hea].
  - destruct (cycle_low ea Hea) as (Hres & Hden & Hnext).
    rewrite eccentric_anomaly_step by assumption.
    apply IH. now right.
  - destruct (cycle_high ea Hea) as (Hres & Hden & Hnext).
    rewrite eccentric_anomaly_step by assumption.
    apply IH. now left.
Qed.

Lemma estimate_S (s m : R) (k : nat) :
  estimate s m (S k) = newton s m (estimate s m k).
Proof. reflexivity. Qed.

Lemma estimate_cycle (k : nat) :
  low_arc (estimate s_cycle m_cycle k) \/ high_arc (estimate s_cycle m_cycle k).
Proof.
  induction k as [|k IH]; [left; exact m_cycle_low|].
  rewrite estimate_S. destruct IH as [H | H].
  - right. now apply cycle_low.
  - left. now apply cycle_high.
Qed.

Lemma solver_runs_from (s m : R) (depth j : nat) :
  (forall k, (k < depth)%nat ->
     ~ Rabs (residual s m (estimate s m (j + k))) < _DELTA
     /\ 1 - s * cos (estimate s m (j + k)) <> 0) ->
  eccentric_anomaly depth s m (Some (estimate s m j)) = Raise RecursionError.
Proof.
  revert j. induction depth as [|depth IH]; intros j H; [reflexivity|].
  destruct (H 0%nat) as [Hres Hden]; [lia|].
  rewrite Nat.add_0_r in Hres, Hden.
  rewrite eccentric_anomaly_step, <- estimate_S by assumption.
  apply IH. intros k Hk.
  replace (S j + k)%nat with (j + S k)%nat by lia.
  apply H. lia.
Qed.

(** C6, as stated, fails: no number of frames is enough for the solver on
    the eccentricity 1.09 and the mean anomaly -0.045; it uses up every
    frame it is given, and the only failure it ever reports is the
    interpreter's [RecursionError].  Hence no bound on the iterations. *)
Lemma no_iteration_bound :
  (~ exists depth,
       eccentric_anomaly depth 1.09 (-0.045) None <> Raise RecursionError)
  /\ ~ exists B, iteration_bound B.
Proof.
  assert (Hrun : forall depth,
             eccentric_anomaly depth 1.09 (-0.045) None = Raise RecursionError).
  { intros depth. change 1.09 with s_cycle. change (-0.045) with m_cycle.
    rewrite eccentric_anomaly_None. apply cycle_exhausts. left. exact m_cycle_low. }
  split.
  - intros [depth H]. now apply H.
  - intros [B HB]. now apply (HB 1.09 (-0.045) (S B)); [lia|].
Qed.

(** C6, amended: the solver has no iteration ceiling and no failure of its
    own for a run that does not converge: as long as the estimates fail the
    stopping test [|E - e sin E - M| < 1e-7] (and the divisor
    [1 - e cos E] is not zero), it goes on with the next Newton update,
    however many frames it is given, until the interpreter has none left. *)
Theorem solver_runs_until_converged (s m : R) (depth : nat) :
  (forall k, (k < depth)%nat ->
     ~ Rabs (residual s m (estimate s m k)) < _DELTA
     /\ 1 - s * cos (estimate s m k) <> 0) ->
  eccentric_anomaly depth s m None = Raise RecursionError.
Proof.
  intros H. rewrite eccentric_anomaly_None.
  apply (solver_runs_from s m depth 0). exact H.
Qed.

Lemma solver_runs_until_converged_witness :
  eccentric_anomaly 51 1.09 (-0.045) None = Raise RecursionError.
Proof.
  change 1.09 with s_cycle. change (-0.045) with m_cycle.
  apply solver_runs_until_converged. intros k _.
  destruct (estimate_cycle k) as [H | H].
  - split; now apply cycle_low.
  - split; now apply cycle_high.
Defined.

(** ** The orbit cache of a context *)

Lemma get_orbit_instance_hit (ctx : CelestialSphera.ctx) (id : PlanetId)
    (st : Store) (oi : OrbitInstance) :
  cache st !! id = Some oi ->
  CelestialSphera.get_orbit_instance ctx id st = (Ok oi, st).
Proof. intros H. unfold CelestialSphera.get_orbit_instance. now rewrite H. Qed.

Lemma get_orbit_instance_miss (ctx : CelestialSphera.ctx) (id : PlanetId)
    (st : Store) :
  cache st !! id = None ->
  CelestialSphera.get_orbit_instance ctx id st
  = (Ok (instantiated ctx id),
     {| cache := <[id := instantiated ctx id]> (cache st);
        calls := id :: calls st |}).
Proof. intros H. unfold CelestialSphera.get_orbit_instance. now rewrite H. Qed.

Lemma store_ok_fresh (ctx : CelestialSphera.ctx) : store_ok ctx fresh.
Proof. intros id. cbn. now rewrite lookup_empty. Qed.

Lemma call_count_cons (id id' : PlanetId) (c : gmap PlanetId OrbitInstance)
    (l : list PlanetId) :
  call_count id {| cache := c; calls := id' :: l |}
  = ((if decide (id' = id) then 1 else 0)
     + call_count id {| cache := c; calls := l |})%nat.
Proof.
  unfold call_count. cbn [calls count_occ].
  destruct (PlanetId_eq_dec id' id) as [e|n]; destruct (decide (id' = id));
    try contradiction; reflexivity.
Qed.

Lemma store_ok_get (ctx : CelestialSphera.ctx) (id : PlanetId) (st : Store) :
  store_ok ctx st ->
  store_ok ctx (snd (CelestialSphera.get_orbit_instance ctx id st)).
Proof.
  intros Hok. destruct (cache st !! id) as [oi|] eqn:E.
  - now rewrite (get_orbit_instance_hit _ _ _ _ E).
  - rewrite (get_orbit_instance_miss _ _ _ E). cbn [snd].
    intros id'. specialize (Hok id'). cbn [cache].
    rewrite call_count_cons.
    destruct (decide (id = id')) as [<-|Hne].
    + rewrite lookup_insert_eq. rewrite E in Hok.
      split; [reflexivity|]. unfold call_count in *. cbn in *. lia.
    + rewrite lookup_insert_ne by assumption.
      destruct (cache st !! id'); unfold call_count in *; cbn in *; exact Hok.
Qed.

Lemma reachable_ok (ctx : CelestialSphera.ctx) (st : Store) :
  reachable ctx st -> store_ok ctx st.
Proof.
  induction 1 as [|id st _ IH]; [apply store_ok_fresh|now apply store_ok_get].
Qed.

(** In a store the context can be in, a call returns the instance of the
    planet at the context's time and leaves it cached. *)
Lemma get_orbit_instance_ok (ctx : CelestialSphera.ctx) (id : PlanetId)
    (st : Store) :
  store_ok ctx st ->
  exists st',
    CelestialSphera.get_orbit_instance ctx id st = (Ok (instantiated ctx id), st')
    /\ cache st' !! id = Some (instantiated ctx id)
    /\ (calls st' = calls st \/ calls st' = id :: calls st).
Proof.
  intros Hok. destruct (cache st !! id) as [oi|] eqn:E.
  - exists st. rewrite (get_orbit_instance_hit _ _ _ _ E).
    specialize (Hok id). rewrite E in Hok. destruct Hok as [-> _].
    repeat split; [assumption|now left].
  - eexists. rewrite (get_orbit_instance_miss _ _ _ E).
    split; [reflexivity|]. cbn. rewrite lookup_insert_eq. split; [reflexivity|now right].
Qed.

(** C5: on a context in any state it can be in, two calls of
    [get_orbit_instance] with the same identifier return the same instance,
    the second one out of the cache: it leaves the cache and the log of
    instantiations as the first call left them, and once both are done the
    underlying instantiation has been invoked for that identifier exactly
    once (by the first of the two calls, or before them). *)
Theorem get_orbit_instance_once (ctx : CelestialSphera.ctx) (id : PlanetId)
    (st : Store) :
  reachable ctx st ->
  let call1 := CelestialSphera.get_orbit_instance ctx id st in
  let call2 := CelestialSphera.get_orbit_instance ctx id (snd call1) in
  fst call1 = Ok (instantiated ctx id)
  /\ fst call2 = fst call1
  /\ snd call2 = snd call1
  /\ call_count id (snd call2) = 1%nat
  /\ (cache st !! id = None -> calls (snd call2) = id :: calls st).
Proof.
  intros Hr call1 call2. subst call1 call2.
  pose proof (reachable_ok _ _ Hr) as Hok.
  destruct (get_orbit_instance_ok ctx id st Hok) as (st1 & E1 & Hc & _).
  rewrite E1. cbn [fst snd].
  rewrite (get_orbit_instance_hit _ _ _ _ Hc). cbn [fst snd].
  repeat split.
  - pose proof (store_ok_get ctx id st Hok) as Hok1.
    rewrite E1 in Hok1. cbn [snd] in Hok1.
    specialize (Hok1 id). rewrite Hc in Hok1. apply Hok1.
  - intros E. rewrite (get_orbit_instance_miss _ _ _ E) in E1.
    injection E1 as <-. reflexivity.
Qed.

Lemma get_orbit_instance_once_witness :
  let call1 := CelestialSphera.get_orbit_instance (ctx_at 0 1) MERCURY fresh in
  let call2 := CelestialSphera.get_orbit_instance (ctx_at 0 1) MERCURY (snd call1) in
  fst call1 = Ok (instantiated (ctx_at 0 1) MERCURY)
  /\ fst call2 = fst call1
  /\ snd call2 = snd call1
  /\ call_count MERCURY (snd call2) = 1%nat
  /\ (cache fresh !! MERCURY = None -> calls (snd call2) = MERCURY :: calls fresh).
Proof. apply get_orbit_instance_once. apply reachable_fresh. Defined.

(** ** Direct instantiation against the cached orbit *)

Lemma for_id_id (id : PlanetId) : Planet.id (Planet.for_id id) = id.
Proof. destruct id; reflexivity. Qed.

Lemma bind_run {A B} (c : M A) (k : A -> M B) (st : Store) :
  bind c k st
  = match c st with
    | (Ok a, st') => k a st'
    | (Raise e, st') => (Raise e, st')
    end.
Proof. reflexivity. Qed.

Lemma get_mean_anomaly_run (ctx : CelestialSphera.ctx) (id : PlanetId)
    (dt : R) (st : Store) :
  CelestialSphera.get_mean_anomaly ctx id (Some dt) st
  = match CelestialSphera.get_orbit_instance ctx id st with
    | (Ok oi, st') =>
        (Ok (oi_mean_anomaly oi
             - math.radians
                 (dt * OElements.daily_motion (Planet.orbit (Planet.for_id id)))),
         st')
    | (Raise e, st') => (Raise e, st')
    end.
Proof.
  unfold CelestialSphera.get_mean_anomaly. rewrite bind_run.
  destruct (CelestialSphera.get_orbit_instance ctx id st) as [[oi|e] st'];
    reflexivity.
Qed.

(** The light-time correction starts by looking up the planet's own orbit:
    it runs the same from a store and from the store a lookup of that orbit
    has left. *)
Lemma _get_corrected_helio_after_get (depth : nat) (self : Planet.t)
    (ctx : CelestialSphera.ctx) (oi : OrbitInstance) (lg rg dt rho : R)
    (st : Store) :
  store_ok ctx st ->
  _get_corrected_helio (S depth) self ctx oi lg rg dt rho
    (snd (CelestialSphera.get_orbit_instance ctx (Planet.id self) st))
  = _get_corrected_helio (S depth) self ctx oi lg rg dt rho st.
Proof.
  intros Hok.
  destruct (get_orbit_instance_ok ctx (Planet.id self) st Hok) as (st1 & E & Hc & _).
  rewrite E. cbn [snd _get_corrected_helio].
  rewrite (bind_run _ _ st1), (bind_run _ _ st), !get_mean_anomaly_run.
  now rewrite E, (get_orbit_instance_hit _ _ _ _ Hc).
Qed.

(** C10, as stated, fails for a planet object that is not the registry's:
    the context instantiates the orbit registered under the identifier,
    whatever orbit the object carries. *)
Lemma cached_orbit_differs :
  fst (CelestialSphera.get_orbit_instance (ctx_at 0 1)
         (Planet.id (circular MERCURY 1)) fresh)
  <> Ok (OElements.instantiate (Planet.orbit (circular MERCURY 1))
           (CelestialSphera.t (ctx_at 0 1))).
Proof.
  rewrite get_orbit_instance_miss by apply lookup_empty.
  cbn [fst]. intros H.
  apply (f_equal (fun r => match r with
                           | Ok oi => oi_major_semiaxis oi
                           | Raise _ => 0
                           end)) in H.
  unfold instantiated in H.
  cbn [circular oi_major_semiaxis OElements.instantiate
       OElements.major_semiaxis Planet.orbit Planet.for_id Planet.id] in H.
  lra.
Qed.

(** C10, amended: for a planet whose orbit is the one the registry holds
    under its identifier (every planet [Planet.for_id] returns), and a
    context in any state it can be in, [ctx.get_orbit_instance(p.id)] is the
    instance [geocentric_position] computes directly, and taking the orbit
    from the cache instead leaves the result of [geocentric_position]
    unchanged (and, when the correction gets a frame to run in, the store
    it leaves as well). *)
Theorem cached_orbit_is_direct (depth : nat) (self : Planet.t)
    (ctx : CelestialSphera.ctx) (st : Store) :
  reachable ctx st ->
  Planet.orbit self = Planet.orbit (Planet.for_id (Planet.id self)) ->
  fst (CelestialSphera.get_orbit_instance ctx (Planet.id self) st)
  = Ok (OElements.instantiate (Planet.orbit self) (CelestialSphera.t ctx))
  /\ fst (geocentric_position_cached depth self ctx st)
     = fst (geocentric_position depth self ctx st)
  /\ geocentric_position_cached (S depth) self ctx st
     = geocentric_position (S depth) self ctx st.
Proof.
  intros Hr Horb. pose proof (reachable_ok _ _ Hr) as Hok.
  destruct (get_orbit_instance_ok ctx (Planet.id self) st Hok) as (st1 & E & Hc & _).
  assert (Hinst : instantiated ctx (Planet.id self)
                  = OElements.instantiate (Planet.orbit self) (CelestialSphera.t ctx)).
  { unfold instantiated. now rewrite <- Horb. }
  assert (Hstep : forall d,
             geocentric_position_cached (S d) self ctx st
             = geocentric_position (S d) self ctx st).
  { intros d. unfold geocentric_position_cached, geocentric_position.
    cbv zeta. rewrite (bind_run (CelestialSphera.get_orbit_instance _ _)).
    rewrite E, Hinst, (bind_run _ _ st1), (bind_run _ _ st).
    pose proof (_get_corrected_helio_after_get d self ctx
                  (OElements.instantiate (Planet.orbit self) (CelestialSphera.t ctx))
                  (math.radians (phi (CelestialSphera.sun_geo ctx)) + math.pi)
                  (rho (CelestialSphera.sun_geo ctx)) 0 0 st Hok) as Hg.
    rewrite E in Hg. cbn [snd] in Hg. now rewrite Hg. }
  split; [|split].
  - now rewrite E, <- Hinst.
  - destruct depth as [|d]; [|now rewrite Hstep].
    unfold geocentric_position_cached, geocentric_position.
    cbv zeta. rewrite (bind_run (CelestialSphera.get_orbit_instance _ _)).
    rewrite E. reflexivity.
  - apply Hstep.
Qed.

Lemma cached_orbit_is_direct_witness :
  fst (CelestialSphera.get_orbit_instance (ctx_at 0 1)
         (Planet.id (Planet.for_id MERCURY)) fresh)
  = Ok (OElements.instantiate (Planet.orbit (Planet.for_id MERCURY))
          (CelestialSphera.t (ctx_at 0 1)))
  /\ fst (geocentric_position_cached 2 (Planet.for_id MERCURY) (ctx_at 0 1) fresh)
     = fst (geocentric_position 2 (Planet.for_id MERCURY) (ctx_at 0 1) fresh)
  /\ geocentric_position_cached 3 (Planet.for_id MERCURY) (ctx_at 0 1) fresh
     = geocentric_position 3 (Planet.for_id MERCURY) (ctx_at 0 1) fresh.
Proof.
  apply cached_orbit_is_direct.
  - apply reachable_fresh.
  - reflexivity.
Defined.

(** ** The light-time correction *)

Lemma res_bind_Ok {A B} (r : Res A) (f : A -> Res B) (b : B) :
  res_bind r f = Ok b -> exists a, r = Ok a /\ f a = Ok b.
Proof. destruct r as [a|e]; [now exists a|discriminate]. Qed.

(** A call of [_get_corrected_helio] is one heliocentric pass followed by
    the test of the delay it was called with. *)
Lemma _get_corrected_helio_unfold (depth : nat) (self : Planet.t)
    (ctx : CelestialSphera.ctx) (oi : OrbitInstance) (lg rg dt rho : R)
    (st : Store) :
  _get_corrected_helio (S depth) self ctx oi lg rg dt rho st
  = match helio_pass depth self ctx oi lg rg dt st with
    | (Ok h, st') =>
        if Req_dec_T dt 0 then
          _get_corrected_helio depth self ctx oi lg rg
            (h_rho h * 5.775518e-3) (h_rho h) st'
        else (Ok (with_rho h rho), st')
    | (Raise e, st') => (Raise e, st')
    end.
Proof.
  cbn [_get_corrected_helio]. unfold helio_pass.
  rewrite !bind_run.
  destruct (CelestialSphera.get_mean_anomaly _ _ _ st) as [[ma|e] st1];
    [|reflexivity].
  rewrite !bind_run.
  destruct (_calculate_perturbations self ctx dt st1) as [[pert|e] st2];
    [|reflexivity].
  rewrite bind_run. unfold lift.
  destruct (_calculate_heliocentric _ _ _ _ _ _) as [h|e]; [|reflexivity].
  destruct (Req_dec_T dt 0); reflexivity.
Qed.

(** The distance [geocentric_position] reports is the one of the record the
    light-time correction returned. *)
Lemma geocentric_position_delta (depth : nat) (self : Planet.t)
    (ctx : CelestialSphera.ctx) (st st' st'' : Store) (h : HelioRecord)
    (pos : EclipticPosition) :
  _get_corrected_helio depth self ctx
    (OElements.instantiate (Planet.orbit self) (CelestialSphera.t ctx))
    (math.radians (phi (CelestialSphera.sun_geo ctx)) + math.pi)
    (rho (CelestialSphera.sun_geo ctx)) 0 0 st = (Ok h, st') ->
  geocentric_position depth self ctx st = (Ok pos, st'') ->
  delta pos = h_rho h /\ st'' = st'.
Proof.
  intros Hh. unfold geocentric_position. cbv zeta.
  rewrite bind_run, Hh. unfold lift. intros [= Hpos <-].
  split; [|reflexivity].
  apply res_bind_Ok in Hpos as (q & _ & Hpos).
  apply res_bind_Ok in Hpos as (lb & _ & Hpos).
  now injection Hpos as <-.
Qed.

(** X31: when the first pass (delay 0) yields a distance [rho1]
    whose delay [rho1 * 5.775518e-3] is not zero, the light-time correction
    is exactly two heliocentric passes: the first with delay 0, the second
    with that delay, run in the store the first one left.  The record
    returned has the second pass's angles and the first pass's distance,
    and [geocentric_position] reports that distance as [delta]. *)
Theorem light_time_two_passes (depth : nat) (self : Planet.t)
    (ctx : CelestialSphera.ctx) (st : Store) (h1 h2 : HelioRecord) :
  let oi := OElements.instantiate (Planet.orbit self) (CelestialSphera.t ctx) in
  let lg := math.radians (phi (CelestialSphera.sun_geo ctx)) + math.pi in
  let rg := rho (CelestialSphera.sun_geo ctx) in
  let pass1 := helio_pass (S depth) self ctx oi lg rg 0 st in
  let dt := h_rho h1 * 5.775518e-3 in
  let pass2 := helio_pass depth self ctx oi lg rg dt (snd pass1) in
  fst pass1 = Ok h1 ->
  dt <> 0 ->
  fst pass2 = Ok h2 ->
  _get_corrected_helio (S (S depth)) self ctx oi lg rg 0 0 st
  = (Ok (with_rho h2 (h_rho h1)), snd pass2)
  /\ forall pos st',
       geocentric_position (S (S depth)) self ctx st = (Ok pos, st') ->
       delta pos = h_rho h1 /\ st' = snd pass2.
Proof.
  intros oi lg rg pass1 dt pass2 H1 Hdt H2.
  assert (Hg : _get_corrected_helio (S (S depth)) self ctx oi lg rg 0 0 st
               = (Ok (with_rho h2 (h_rho h1)), snd pass2)).
  { rewrite _get_corrected_helio_unfold. fold pass1.
    destruct pass1 as [r1 st1] eqn:E1. cbn [fst snd] in *. subst r1.
    destruct (Req_dec_T 0 0) as [_|Hn]; [|now contradiction Hn].
    rewrite _get_corrected_helio_unfold. fold dt. fold pass2.
    destruct pass2 as [r2 st2] eqn:E2. cbn [fst snd] in *. subst r2.
    destruct (Req_dec_T dt 0) as [Hz|_]; [contradiction|reflexivity]. }
  split; [exact Hg|].
  intros pos st' Hpos.
  destruct (geocentric_position_delta _ _ _ _ _ _ _ _ Hg Hpos) as [Hd Hs].
  split; [exact Hd|exact Hs].
Qed.

(** *** Circular orbits without perturbations *)

Lemma _calculate_heliocentric_circular (depth : nat) (oi : OrbitInstance) (ma re lg : R) :
  oi_eccentricity oi = 0 ->
  exists h c,
    _calculate_heliocentric (S depth) oi ma re lg PertRecord_default = Ok h
    /\ -1 <= c <= 1
    /\ h_rho h = sqrt (re * re + oi_major_semiaxis oi * oi_major_semiaxis oi
                       - 2 * re * oi_major_semiaxis oi * c).
Proof.
  intros He. unfold _calculate_heliocentric.
  cbn [ds dm da dr dml dhl dl PertRecord_default]. cbv zeta.
  rewrite He. replace 0.0 with 0 by lra. rewrite (Rplus_0_l 0).
  rewrite eccentric_anomaly_None, eccentric_anomaly_stop.
  2:{ unfold residual, _DELTA. match goal with |- Rabs ?x < _ => replace x with 0 by ring end. rewrite Rabs_R0. lra. }
  cbn [res_bind]. unfold true_anomaly.
  rewrite pydiv_Ok by lra. cbn [res_bind].
  rewrite sqrt_Ok.
  2:{ replace ((1 + 0) / (1 - 0)) with 1 by field. lra. }
  cbn [res_bind].
  rewrite pydiv_Ok.
  2:{ rewrite Rmult_0_l. lra. }
  cbn [res_bind].
  set (nu := 2 * atan _).
  replace ((oi_major_semiaxis oi + 0) * (1 - 0 * 0) / (1 + 0 * cos nu) + 0)
    with (oi_major_semiaxis oi) by (field; lra).
  set (a := oi_major_semiaxis oi).
  rewrite asin_Ok.
  2:{ rewrite Rabs_mult. pose proof (Rabs_pos (sin (oi_inclination oi))).
      pose proof (Rabs_pos (sin (nu + oi_perihelion oi + (0 - 0) - oi_mean_node oi))).
      assert (Hs : forall x, Rabs (sin x) <= 1)
        by (intros x; apply Rabs_le; destruct (SIN_bound x); split; lra).
      pose proof (Hs (oi_inclination oi)).
      pose proof (Hs (nu + oi_perihelion oi + (0 - 0) - oi_mean_node oi)).
      nra. }
  cbn [res_bind].
  set (cpsi := cos (asin _ + 0)).
  set (cll := cos (_ - lg)).
  assert (Hc : -1 <= cpsi * cll <= 1).
  { destruct (COS_bound (asin (sin (nu + oi_perihelion oi + (0 - 0) - oi_mean_node oi)
                                 * sin (oi_inclination oi)) + 0)).
    fold cpsi in H, H0.
    assert (-1 <= cll <= 1) as [? ?] by (subst cll; apply COS_bound).
    split; nra. }
  replace (re * re + a * a - 2 * re * a * cpsi * cll)
    with (re * re + a * a - 2 * re * a * (cpsi * cll)) by ring.
  rewrite sqrt_Ok.
  2:{ set (c := cpsi * cll) in *.
      pose proof (Rle_0_sqr (re - a * c)) as H1. unfold Rsqr in H1.
      assert (H2 : 0 <= (1 - c) * (1 + c)) by (apply Rmult_le_pos; lra).
      pose proof (Rmult_le_pos _ _ (Rle_0_sqr a) H2) as H3. unfold Rsqr in H3.
      lra. }
  cbn [res_bind]. eexists. exists (cpsi * cll).
  split; [reflexivity|]. split; [exact Hc|reflexivity].
Qed.

Lemma trunc_0 : math.trunc 0 = 0%Z.
Proof.
  destruct (trunc_nonneg 0) as [H1 H2]; [lra|].
  apply le_IZR in H1.
  replace (IZR (math.trunc 0) + 1) with (IZR (math.trunc 0 + 1)) in H2
    by (rewrite plus_IZR; reflexivity).
  apply lt_IZR in H2. lia.
Qed.

Lemma reduce_deg_0 : reduce_deg 0 = 0.
Proof.
  unfold reduce_deg, to_range, math.fmod.
  replace (0 / 360) with 0 by field. rewrite trunc_0.
  replace (0 - 0 * 360) with 0 by ring.
  destruct (Rlt_dec 0 0); lra.
Qed.

Lemma circular_eccentricity (id : PlanetId) (a t : R) :
  oi_eccentricity (OElements.instantiate (Planet.orbit (circular id a)) t) = 0.
Proof. exact reduce_deg_0. Qed.

Lemma circular_major_semiaxis (id : PlanetId) (a t : R) :
  oi_major_semiaxis (OElements.instantiate (Planet.orbit (circular id a)) t) = a.
Proof. reflexivity. Qed.

Lemma get_mean_anomaly_total (ctx : CelestialSphera.ctx) (id : PlanetId)
    (dt : R) (st : Store) :
  exists ma st',
    CelestialSphera.get_mean_anomaly ctx id (Some dt) st = (Ok ma, st').
Proof.
  rewrite get_mean_anomaly_run.
  destruct (cache st !! id) as [oi|] eqn:E.
  - rewrite (get_orbit_instance_hit _ _ _ _ E). eauto.
  - rewrite (get_orbit_instance_miss _ _ _ E). eauto.
Qed.

(** A pass for a circular orbit succeeds as soon as the Kepler solver has a
    frame; the distance it finds is the third side of the triangle Sun,
    Earth, planet. *)
Lemma helio_pass_circular (depth : nat) (id : PlanetId) (a : R)
    (ctx : CelestialSphera.ctx) (lg rg dt : R) (st : Store) :
  exists h c,
    fst (helio_pass (S depth) (circular id a) ctx
           (OElements.instantiate (Planet.orbit (circular id a))
              (CelestialSphera.t ctx)) lg rg dt st) = Ok h
    /\ -1 <= c <= 1
    /\ h_rho h = sqrt (rg * rg + a * a - 2 * rg * a * c).
Proof.
  unfold helio_pass. rewrite bind_run.
  destruct (get_mean_anomaly_total ctx (Planet.id (circular id a)) dt st)
    as (ma & st1 & ->).
  rewrite bind_run.
  change (_calculate_perturbations (circular id a) ctx dt st1)
    with (Ok PertRecord_default, st1).
  unfold lift. cbn [fst].
  destruct (_calculate_heliocentric_circular depth
              (OElements.instantiate (Planet.orbit (circular id a))
                 (CelestialSphera.t ctx)) ma rg lg
              (circular_eccentricity _ _ _)) as (h & c & -> & Hc & Hrho).
  rewrite circular_major_semiaxis in Hrho. eauto.
Qed.




Lemma light_time_two_passes_witness :
  exists h1 h2,
    let self := circular PLUTO 3 in
    let ctx := ctx_at 0 1 in
    let oi := OElements.instantiate (Planet.orbit self) (CelestialSphera.t ctx) in
    let lg := math.radians (phi (CelestialSphera.sun_geo ctx)) + math.pi in
    let rg := rho (CelestialSphera.sun_geo ctx) in
    let pass1 := helio_pass 2 self ctx oi lg rg 0 fresh in
    let dt := h_rho h1 * 5.775518e-3 in
    let pass2 := helio_pass 1 self ctx oi lg rg dt (snd pass1) in
    fst pass1 = Ok h1 /\ dt <> 0 /\ fst pass2 = Ok h2
    /\ _get_corrected_helio 3 self ctx oi lg rg 0 0 fresh
       = (Ok (with_rho h2 (h_rho h1)), snd pass2)
    /\ forall pos st',
         geocentric_position 3 self ctx fresh = (Ok pos, st') ->
         delta pos = h_rho h1 /\ st' = snd pass2.
Proof.
  destruct (helio_pass_circular 1 PLUTO 3 (ctx_at 0 1)
              (math.radians (phi (CelestialSphera.sun_geo (ctx_at 0 1))) + math.pi)
              (rho (CelestialSphera.sun_geo (ctx_at 0 1))) 0 fresh)
    as (h1 & c1 & H1 & Hc1 & Hrho1).
  destruct (helio_pass_circular 0 PLUTO 3 (ctx_at 0 1)
              (math.radians (phi (CelestialSphera.sun_geo (ctx_at 0 1))) + math.pi)
              (rho (CelestialSphera.sun_geo (ctx_at 0 1)))
              (h_rho h1 * 5.775518e-3)
              (snd (helio_pass 2 (circular PLUTO 3) (ctx_at 0 1)
                      (OElements.instantiate (Planet.orbit (circular PLUTO 3))
                         (CelestialSphera.t (ctx_at 0 1)))
                      (math.radians (phi (CelestialSphera.sun_geo (ctx_at 0 1)))
                       + math.pi)
                      (rho (CelestialSphera.sun_geo (ctx_at 0 1))) 0 fresh)))
    as (h2 & c2 & H2 & _ & _).
  assert (Hdt : h_rho h1 * 5.775518e-3 <> 0).
  { rewrite Hrho1. cbn [rho CelestialSphera.sun_geo ctx_at].
    assert (0 < sqrt (1 * 1 + 3 * 3 - 2 * 1 * 3 * c1))
      by (apply sqrt_lt_R0; lra).
    lra. }
  exists h1, h2. cbv zeta.
  split; [exact H1|]. split; [exact Hdt|]. split; [exact H2|].
  exact (light_time_two_passes 1 (circular PLUTO 3) (ctx_at 0 1) fresh h1 h2
           H1 Hdt H2).
Defined.

(** * Further properties of the code *)

(** ** mathutils.py *)

Lemma to_range_congruent (x r : R) :
  exists k : Z, to_range x r = x - IZR k * r.
Proof.
  unfold to_range, math.fmod.
  destruct (Rlt_dec _ 0).
  - exists (math.trunc (x / r) - 1)%Z. rewrite minus_IZR. ring.
  - now exists (math.trunc (x / r)).
Qed.

(** Two numbers of [0, r) that differ by a multiple of [r] are equal. *)
Lemma range_unique (a b r : R) (k : Z) :
  0 <= a < r -> 0 <= b < r -> a = b + IZR k * r -> a = b.
Proof.
  intros Ha Hb E.
  assert (Hk : (-1 < k < 1)%Z).
  { split; apply lt_IZR.
    - assert (- r < IZR k * r) by lra.
      replace (- r) with (-1 * r) in H by ring.
      apply Rmult_lt_reg_r in H; lra.
    - assert (IZR k * r < r) by lra.
      replace r with (1 * r) in H at 2 by ring.
      apply Rmult_lt_reg_r in H; lra. }
  assert (k = 0%Z) by lia. subst k. lra.
Qed.

(** X1: for a positive range [r], [to_range(x, r)] lies between 0 and [r]
    and differs from [x] by a whole multiple of [r]; for [x >= 0], where
    the code returns the remainder [fmod(x, r)] as it is, it lies below [r].
    The end [r] is left in for a negative [x]: there the code returns the
    sum [fmod(x, r) + r], which rounding can set on [r] itself
    ([to_range_reaches_range]). *)
Theorem to_range_spec (x r : R) :
  0 < r ->
  0 <= to_range x r <= r
  /\ (0 <= x -> to_range x r < r)
  /\ exists k : Z, to_range x r = x - IZR k * r.
Proof.
  intros Hr. pose proof (to_range_bounds x r Hr) as Hb.
  split; [lra|]. split; [intros _; lra|apply to_range_congruent].
Qed.

Lemma to_range_spec_witness :
  0 <= to_range (-700) 360 <= 360
  /\ (0 <= -700 -> to_range (-700) 360 < 360)
  /\ exists k : Z, to_range (-700) 360 = -700 - IZR k * 360.
Proof. apply to_range_spec. lra. Defined.

(** X3: [to_range] leaves the numbers of [0, r) as they are, and only
    them; for [x >= 0] reducing twice is reducing once. *)
Theorem to_range_fixes (x r : R) :
  0 < r ->
  (to_range x r = x <-> 0 <= x < r)
  /\ (0 <= x -> to_range (to_range x r) r = to_range x r).
Proof.
  intros Hr.
  assert (Hfix : forall y, 0 <= y < r -> to_range y r = y).
  { intros y Hy. destruct (to_range_congruent y r) as [k E].
    apply (range_unique _ _ r (- k)%Z); [now apply to_range_bounds|exact Hy|].
    rewrite E, opp_IZR. ring. }
  split; [split|].
  - intros <-. now apply to_range_bounds.
  - apply Hfix.
  - intros _. apply Hfix. now apply to_range_bounds.
Qed.

Lemma to_range_fixes_witness :
  (to_range 20 360 = 20 <-> 0 <= 20 < 360)
  /\ (0 <= 20 -> to_range (to_range 20 360) 360 = to_range 20 360).
Proof. apply to_range_fixes. lra. Defined.

Lemma power_sum_shift (t : R) (m : nat) (cs : list R) :
  power_sum t (S m) cs = t * power_sum t m cs.
Proof.
  revert m; induction cs as [|c cs IH]; intros m; cbn [power_sum].
  - ring.
  - rewrite IH. cbn [pow]. ring.
Qed.

Lemma power_sum_snoc (t x : R) (l : list R) (m : nat) :
  power_sum t m (l ++ [x]) = power_sum t m l + x * t ^ (m + List.length l).
Proof.
  revert m. induction l as [|c l IH]; intros m; cbn [app power_sum List.length].
  - rewrite Nat.add_0_r. ring.
  - rewrite IH. replace (S m + List.length l)%nat with (m + S (List.length l))%nat by lia.
    ring.
Qed.

Lemma fold_left_horner (t : R) (l : list R) (acc : R) :
  fold_left (fun a b => t * a + b) l acc
  = acc * t ^ List.length l + power_sum t 0 (rev l).
Proof.
  revert acc. induction l as [|c l IH] using rev_ind; intros acc.
  - cbn. ring.
  - rewrite fold_left_app, rev_app_distr, length_app.
    cbn [fold_left rev app List.length power_sum].
    rewrite IH, power_sum_shift, Nat.add_1_r. cbn [pow]. ring.
Qed.

(** X4: [polynome(t, a, *args)] is the polynomial
    [a + args[0] t + args[1] t^2 + ...], whatever the number of
    coefficients. *)
Theorem polynome_power_sum (t a : R) (args : list R) :
  polynome t a args = power_sum t 0 (a :: args).
Proof.
  unfold polynome.
  destruct (rev (a :: args)) as [|x xs] eqn:E.
  - apply (f_equal (@List.length R)) in E. rewrite length_rev in E. discriminate.
  - rewrite (fold_left_horner t xs x).
    replace (a :: args) with (rev (x :: xs)) by (rewrite <- E; apply rev_involutive).
    cbn [rev]. rewrite power_sum_snoc, length_rev. cbn [Nat.add]. ring.
Qed.

Lemma trunc_nonneg_Z (x : R) : 0 <= x -> (0 <= math.trunc x)%Z.
Proof.
  intros Hx. destruct (trunc_nonneg x Hx) as [_ H].
  assert (H' : IZR (-1) < IZR (math.trunc x)) by lra.
  apply lt_IZR in H'. lia.
Qed.

(** X5: [frac(x)] is what remains of [x] once its integer part (rounded
    toward zero) is taken away: it is below 1 in absolute value and has the
    sign of [x]; [frac360] scales it to degrees, between -360 and 360. *)
Theorem frac_spec (x : R) :
  x = IZR (math.trunc x) + frac x
  /\ (0 <= x -> 0 <= frac x < 1)
  /\ (x <= 0 -> -1 < frac x <= 0)
  /\ -360 < frac360 x < 360.
Proof.
  unfold frac360, frac, math.modf. cbn [fst].
  assert (Hp : 0 <= x -> 0 <= x - IZR (math.trunc x) < 1)
    by (intros H; destruct (trunc_nonneg x H); lra).
  assert (Hn : x <= 0 -> -1 < x - IZR (math.trunc x) <= 0).
  { intros [H|H].
    - destruct (trunc_neg x H); lra.
    - subst x. rewrite trunc_0. lra. }
  split; [ring|]. split; [exact Hp|]. split; [exact Hn|].
  destruct (Rle_lt_dec 0 x) as [H|H]; [apply Hp in H|apply Rlt_le, Hn in H]; lra.
Qed.

(** X6: the shortest arc between two angles does not depend on their
    order, and for angles at most a full turn apart it lies between 0 and
    180 degrees. *)
Theorem shortest_arc_deg_spec (a b : R) :
  shortest_arc_deg a b = shortest_arc_deg b a
  /\ (Rabs (a - b) <= 360 -> 0 <= shortest_arc_deg a b <= 180).
Proof.
  unfold shortest_arc_deg, math.fabs. split.
  - now rewrite (Rabs_minus_sym a b).
  - intros H. pose proof (Rabs_pos (a - b)).
    destruct (Rlt_dec 180 (Rabs (a - b))); lra.
Qed.

(** X7: for two angles of [0, 360), [diff_angle(a, b)] lies in
    (-180, 180], differs from [b - a] by a whole turn at most, and its
    absolute value is the shortest arc between them. *)
Theorem diff_angle_spec (a b : R) :
  0 <= a < 360 -> 0 <= b < 360 ->
  -180 < diff_angle a b <= 180
  /\ (exists k : Z, diff_angle a b = b - a + IZR k * 360)
  /\ Rabs (diff_angle a b) = shortest_arc_deg a b.
Proof.
  intros Ha Hb. unfold diff_angle, shortest_arc_deg, math.fabs.
  destruct (Rlt_dec b a) as [Hba|Hba];
    [rewrite (Rabs_right (a - b)) by lra|rewrite (Rabs_left1 (a - b)) by lra];
    repeat match goal with |- context [Rlt_dec ?x ?y] => destruct (Rlt_dec x y) end;
    try lra;
    (split; [lra|]);
    (split;
     [first [exists 0%Z; lra | exists 1%Z; lra | exists (-1)%Z; lra]
     |first [rewrite Rabs_right by lra; lra | rewrite Rabs_left1 by lra; lra]]).
Qed.

Lemma diff_angle_spec_witness :
  -180 < diff_angle 350 10 <= 180
  /\ (exists k : Z, diff_angle 350 10 = 10 - 350 + IZR k * 360)
  /\ Rabs (diff_angle 350 10) = shortest_arc_deg 350 10.
Proof. apply diff_angle_spec; lra. Defined.

(** The sexagesimal digits [dms] computes for a non-negative number. *)
Lemma sexagesimal_digits (y : R) :
  0 <= y ->
  let d := math.trunc y in
  let f60 := fst (math.modf y) * 60 in
  let m := math.trunc f60 in
  let s := fst (math.modf f60) * 60 in
  (0 <= d)%Z /\ (0 <= m < 60)%Z /\ 0 <= s < 60
  /\ y = IZR d + IZR m / 60 + s / 3600.
Proof.
  intros Hy d f60 m s. subst s m f60 d. unfold math.modf. cbn [fst].
  destruct (trunc_nonneg y Hy) as [H1 H2].
  set (d := math.trunc y) in *.
  assert (Hf : 0 <= (y - IZR d) * 60 < 60) by lra.
  destruct (trunc_nonneg _ (proj1 Hf)) as [H3 H4].
  set (m := math.trunc ((y - IZR d) * 60)) in *.
  split; [now apply trunc_nonneg_Z|].
  split; [split; [now apply trunc_nonneg_Z|]|].
  - apply lt_IZR. lra.
  - split; [lra|field].
Qed.

(** X8: [ddd] undoes [dms]: degrees, minutes and seconds put together
    again give the number they were taken from, negative numbers
    included. *)
Theorem ddd_dms (x : R) :
  let '(d, m, s) := dms x in ddd d m s = x.
Proof.
  unfold dms.
  pose proof (sexagesimal_digits (Rabs x) (Rabs_pos x)) as H. cbv zeta in H.
  set (d := math.trunc (Rabs x)) in *.
  set (m := math.trunc (fst (math.modf (Rabs x)) * 60)) in *.
  set (s := fst (math.modf (fst (math.modf (Rabs x)) * 60)) * 60) in *.
  destruct H as (Hd & Hm & Hs & E).
  assert (HId : 0 <= IZR d) by now apply IZR_le.
  assert (HIm : 0 <= IZR m) by (apply IZR_le; lia).
  assert (Hval : forall d' m' s', Rabs (IZR d') = IZR d -> Rabs (IZR m') = IZR m ->
                   Rabs s' = s ->
                   sum_frac (sum_frac s' (IZR m')) (IZR d') = Rabs x).
  { intros d' m' s' Ed Em Es. unfold sum_frac, math.fabs.
    rewrite Ed, Em, Es. rewrite (Rabs_right (s / 60 + IZR m)) by lra.
    lra. }
  destruct (Rlt_dec x 0) as [Hx|Hx].
  - rewrite (Rabs_left x Hx) in Hval.
    destruct (Z.eq_dec d 0) as [Ed|Ed]; [destruct (Z.eq_dec m 0) as [Em|Em]|].
    + unfold ddd. rewrite Hval; try (rewrite Rabs_Ropp); try (apply Rabs_right; lra).
      assert (0 < s).
      { rewrite (Rabs_left x Hx) in E. rewrite Ed, Em in E. lra. }
      destruct (Z_lt_dec d 0); [lra|]. destruct (Z_lt_dec m 0); [lra|].
      destruct (Rlt_dec (- s) 0); lra.
    + unfold ddd. rewrite Hval;
        try (rewrite opp_IZR, Rabs_Ropp); try (apply Rabs_right; lra).
      destruct (Z_lt_dec d 0); [lra|]. destruct (Z_lt_dec (- m) 0); [lra|lia].
    + unfold ddd. rewrite Hval;
        try (rewrite opp_IZR, Rabs_Ropp); try (apply Rabs_right; lra).
      destruct (Z_lt_dec (- d) 0); [lra|lia].
  - unfold ddd. rewrite Hval; try (apply Rabs_right; lra).
    rewrite (Rabs_right x) by lra.
    destruct (Z_lt_dec d 0); [lia|]. destruct (Z_lt_dec m 0); [lia|].
    destruct (Rlt_dec s 0); lra.
Qed.

(** X9: for [x] in [0, 360), [zdms(x)] is a zodiac sign from 0 to 11, a
    degree from 0 to 29, a minute from 0 to 59 and seconds in [0, 60), and
    they add up to [x]. *)
Theorem zdms_spec (x : R) :
  0 <= x < 360 ->
  let '(z, d, m, s) := zdms x in
  (0 <= z < 12)%Z /\ (0 <= d < 30)%Z /\ (0 <= m < 60)%Z /\ 0 <= s < 60
  /\ x = IZR z * 30 + IZR d + IZR m / 60 + s / 3600.
Proof.
  intros Hx. unfold zdms, dms.
  destruct (Rlt_dec x 0) as [H|_]; [lra|].
  rewrite (Rabs_right x) by lra.
  pose proof (sexagesimal_digits x (proj1 Hx)) as H. cbv zeta in H.
  set (d := math.trunc x) in *.
  set (m := math.trunc (fst (math.modf x) * 60)) in *.
  set (s := fst (math.modf (fst (math.modf x) * 60)) * 60) in *.
  destruct H as (Hd & Hm & Hs & E).
  assert (Hd360 : (d < 360)%Z).
  { apply lt_IZR. assert (0 <= IZR m) by (apply IZR_le; lia). lra. }
  split; [split; [apply Z.div_pos; lia|apply Z.div_lt_upper_bound; lia]|].
  split; [apply Z.mod_pos_bound; lia|].
  split; [exact Hm|]. split; [exact Hs|].
  rewrite E at 1.
  replace (IZR (d / 30) * 30 + IZR (d mod 30)) with (IZR d); [reflexivity|].
  rewrite (Z.div_mod d 30) at 1 by lia. rewrite plus_IZR, mult_IZR. ring.
Qed.

Lemma zdms_spec_witness :
  let '(z, d, m, s) := zdms 320 in
  (0 <= z < 12)%Z /\ (0 <= d < 30)%Z /\ (0 <= m < 60)%Z /\ 0 <= s < 60
  /\ 320 = IZR z * 30 + IZR d + IZR m / 60 + s / 3600.
Proof. apply zdms_spec. lra. Defined.

(** ** planets/orbit.py *)


Lemma radians_range (x : R) : 0 <= x < 360 -> 0 <= math.radians x < 2 * PI.
Proof.
  intros Hx. unfold math.radians. pose proof PI_RGT_0.
  assert (0 < PI / 180) by lra.
  split.
  - apply Rmult_le_pos; lra.
  - replace (2 * PI) with (360 * (PI / 180)) by field.
    apply Rmult_lt_compat_r; lra.
Qed.

(** X11: in an instantiated orbit the perihelion, the node, the inclination
    and the mean anomaly are angles between 0 and [2 PI]; the mean anomaly
    is the mean longitude less the perihelion, both in degrees, up to whole
    turns, converted to radians; the eccentricity went through the same
    reduction and lies between 0 and 360; the semi-axis and the daily
    motion do not depend on the time.  (The ends [2 PI] and 360 are left in:
    rounding can set a wrapped angle on them, [mean_anomaly_full_turn].) *)
Theorem instantiate_ranges (self : OElements.t) (t : R) :
  let oi := OElements.instantiate self t in
  0 <= oi_perihelion oi <= 2 * PI
  /\ 0 <= oi_mean_node oi <= 2 * PI
  /\ 0 <= oi_inclination oi <= 2 * PI
  /\ 0 <= oi_mean_anomaly oi <= 2 * PI
  /\ (exists k : Z,
        oi_mean_anomaly oi
        = math.radians (MLTerms.assemble (OElements.mean_longitude self) t
                        - Terms.assemble (OElements.perihelion self) t
                        - IZR k * 360))
  /\ 0 <= oi_eccentricity oi <= 360
  /\ oi_major_semiaxis oi = OElements.major_semiaxis self
  /\ oi_daily_motion oi = math.radians (OElements.daily_motion self).
Proof.
  cbv zeta. cbn [OElements.instantiate oi_perihelion oi_mean_node oi_inclination
                 oi_mean_anomaly oi_eccentricity oi_major_semiaxis oi_daily_motion].
  unfold Terms.assemble, OElements.assemble_mean_anomaly.
  assert (Hrad : forall x, 0 <= math.radians (reduce_deg x) <= 2 * PI).
  { intros x. pose proof (radians_range _ (reduce_deg_bounds x)). lra. }
  assert (Hdeg : forall x, 0 <= reduce_deg x <= 360).
  { intros x. pose proof (reduce_deg_bounds x). lra. }
  assert (Hwrap : forall x, exists k : Z,
             math.radians (reduce_deg x) = math.radians (x - IZR k * 360)).
  { intros x. destruct (to_range_congruent x 360) as [k E].
    exists k. unfold reduce_deg. now rewrite E. }
  split; [apply Hrad|]. split; [apply Hrad|]. split; [apply Hrad|].
  split; [apply Hrad|]. split; [apply Hwrap|]. split; [apply Hdeg|].
  split; reflexivity.
Qed.

(** ** kepler.py *)

Lemma true_anomaly_Ok (e E : R) :
  -1 <= e < 1 ->
  true_anomaly e E = Ok (2 * atan (sqrt ((1 + e) / (1 - e)) * tan (E / 2))).
Proof.
  intros He. unfold true_anomaly.
  rewrite pydiv_Ok by lra. cbn [res_bind].
  rewrite sqrt_Ok; [reflexivity|].
  apply Rmult_le_pos; [lra|]. left. apply Rinv_0_lt_compat. lra.
Qed.

(** X12: for an eccentricity in [-1, 1) [true_anomaly] never fails; the
    angle it returns lies in (-PI, PI) and satisfies
    [tan(nu / 2) = sqrt((1 + e) / (1 - e)) tan(E / 2)]. *)
Theorem true_anomaly_elliptic (e E : R) :
  -1 <= e < 1 ->
  exists nu,
    true_anomaly e E = Ok nu
    /\ - PI < nu < PI
    /\ tan (nu / 2) = sqrt ((1 + e) / (1 - e)) * tan (E / 2).
Proof.
  intros He. rewrite true_anomaly_Ok by exact He.
  eexists. split; [reflexivity|].
  set (x := sqrt _ * tan _).
  destruct (atan_bound x). split; [lra|].
  replace (2 * atan x / 2) with (atan x) by field.
  apply tan_atan.
Qed.

Lemma true_anomaly_elliptic_witness :
  exists nu,
    true_anomaly 0.5 1 = Ok nu
    /\ - PI < nu < PI
    /\ tan (nu / 2) = sqrt ((1 + 0.5) / (1 - 0.5)) * tan (1 / 2).
Proof. apply true_anomaly_elliptic. lra. Defined.

(** X13: on a circular orbit the true anomaly is the eccentric anomaly, for
    every eccentric anomaly in (-PI, PI). *)
Theorem true_anomaly_circular (E : R) :
  - PI < E < PI -> true_anomaly 0 E = Ok E.
Proof.
  intros HE. unfold true_anomaly.
  rewrite pydiv_Ok by lra. cbn [res_bind].
  replace ((1 + 0) / (1 - 0)) with 1 by field.
  rewrite sqrt_Ok by lra. cbn [res_bind].
  rewrite sqrt_1, Rmult_1_l, atan_tan by lra.
  f_equal. field.
Qed.

Lemma true_anomaly_circular_witness : true_anomaly 0 1 = Ok 1.
Proof. apply true_anomaly_circular. pose proof PI2_1. lra. Defined.

Lemma eccentric_anomaly_from_estimate (depth : nat) (s m : R) (j : nat) (E : R) :
  eccentric_anomaly depth s m (Some (estimate s m j)) = Ok E ->
  exists k,
    (k < depth)%nat /\ E = estimate s m (j + k)
    /\ Rabs (residual s m E) < _DELTA
    /\ forall i, (i < k)%nat ->
         ~ Rabs (residual s m (estimate s m (j + i))) < _DELTA.
Proof.
  revert j. induction depth as [|depth IH]; intros j; [discriminate|].
  destruct (Rlt_dec (Rabs (residual s m (estimate s m j))) _DELTA) as [Hres|Hres].
  - rewrite eccentric_anomaly_stop by assumption. intros [= <-].
    exists 0%nat. rewrite Nat.add_0_r. repeat split; [lia|assumption|lia].
  - destruct (Req_dec_T (1 - s * cos (estimate s m j)) 0) as [Hden|Hden].
    + cbn. unfold math.fabs. fold (residual s m (estimate s m j)).
      destruct (Rlt_dec _ _); [contradiction|].
      unfold pydiv. destruct (Req_dec_T _ _); [discriminate|contradiction].
    + rewrite eccentric_anomaly_step, <- estimate_S by assumption.
      intros H. destruct (IH _ H) as (k & Hk & -> & Hpass & Hbefore).
      exists (S k). replace (j + S k)%nat with (S j + k)%nat by lia.
      repeat split; [lia|assumption|].
      intros [|i] Hi.
      * now rewrite Nat.add_0_r.
      * replace (j + S i)%nat with (S j + i)%nat by lia. apply Hbefore. lia.
Qed.

(** X14: what the Kepler solver returns is the first estimate of Newton's
    iteration started at [E = M] that passes the stopping test
    [|E - e sin E - M| < 1e-7]; it is found in fewer updates than there are
    frames. *)
Theorem eccentric_anomaly_first_passing (depth : nat) (s m E : R) :
  eccentric_anomaly depth s m None = Ok E ->
  exists k,
    (k < depth)%nat /\ E = estimate s m k
    /\ Rabs (residual s m E) < _DELTA
    /\ forall i, (i < k)%nat ->
         ~ Rabs (residual s m (estimate s m i)) < _DELTA.
Proof.
  rewrite eccentric_anomaly_None. intros H.
  exact (eccentric_anomaly_from_estimate depth s m 0 E H).
Qed.

(** A run that makes one update: eccentricity 0.001, mean anomaly 1.  The
    first estimate, 1, fails the test by [0.001 sin 1]; the update
    [d = 0.001 sin 1 / (1 - 0.001 cos 1)] leaves the residual
    [0.001 (sin 1 (1 - cos d) + cos 1 (d - sin d))], below [1e-9]. *)
Lemma one_update_run :
  ~ Rabs (residual 0.001 1 1) < _DELTA
  /\ eccentric_anomaly 2 0.001 1 None = Ok (estimate 0.001 1 1).
Proof.
  pose proof PI2_1 as HPI.
  assert (Hs1 : 0.84 <= sin 1).
  { assert (H := SIN 1 ltac:(lra) ltac:(lra)). revert H. unfold_trig_approx. lra. }
  pose proof (SIN_bound 1) as [_ Hs1']. pose proof (COS_bound 1) as Hc1.
  assert (Hfail : ~ Rabs (residual 0.001 1 1) < _DELTA).
  { unfold residual, _DELTA. intros H. apply Rabs_def2 in H. lra. }
  split; [exact Hfail|].
  assert (HD : 0.999 <= 1 - 0.001 * cos 1 <= 1.001) by lra.
  rewrite eccentric_anomaly_None, eccentric_anomaly_step by (assumption || lra).
  change (estimate 0.001 1 1) with (newton 0.001 1 1).
  apply eccentric_anomaly_stop.
  unfold newton. set (d := residual 0.001 1 1 / (1 - 0.001 * cos 1)).
  assert (Hd : - d * (1 - 0.001 * cos 1) = 0.001 * sin 1).
  { unfold d, residual. field. lra. }
  assert (Hd0 : 0 <= - d <= 0.0011) by (split; nra).
  unfold residual. replace (1 - d) with (1 + - d) by ring.
  rewrite sin_plus.
  pose proof (cos_above_parabola (- d)) as Hcd.
  pose proof (COS_bound (- d)) as [_ Hcd1].
  pose proof (sin_less_arc_small (- d) ltac:(lra)) as [Hsd0 Hsd1].
  unfold sin_less_arc in Hsd0, Hsd1.
  assert (Hsd : sin (- d) <= - d).
  { destruct Hd0 as [[Hd0 | Hd0] _]; [left; now apply sin_lt_x|].
    rewrite <- Hd0, sin_0. lra. }
  assert (Hd2 : - d * - d <= 0.0011 * 0.0011) by nra.
  assert (Hd3 : - d * - d * - d <= 0.0011 * 0.0011 * 0.0011) by nra.
  set (x := - d) in *. set (c := cos x) in *. set (sx := sin x) in *.
  replace (1 + x - 0.001 * (sin 1 * c + cos 1 * sx) - 1)
    with (0.001 * sin 1 * (1 - c) + 0.001 * cos 1 * (x - sx)) by lra.
  assert (Ha : 0 <= sin 1 * (1 - c) <= 0.000001) by (split; nra).
  assert (Hx : 0 <= x - sx <= 0.000001) by (split; nra).
  assert (Hb : -0.000001 <= cos 1 * (x - sx) <= 0.000001) by (split; nra).
  unfold _DELTA. apply Rabs_def1; lra.
Qed.

Lemma eccentric_anomaly_first_passing_witness :
  ~ Rabs (residual 0.001 1 (estimate 0.001 1 0)) < _DELTA
  /\ exists k,
       (k < 2)%nat /\ estimate 0.001 1 1 = estimate 0.001 1 k
       /\ Rabs (residual 0.001 1 (estimate 0.001 1 1)) < _DELTA
       /\ forall i, (i < k)%nat ->
            ~ Rabs (residual 0.001 1 (estimate 0.001 1 i)) < _DELTA.
Proof.
  destruct one_update_run as [Hfail Hrun].
  split; [exact Hfail|].
  exact (eccentric_anomaly_first_passing 2 0.001 1 (estimate 0.001 1 1) Hrun).
Defined.

Lemma elliptic_divisor_pos (s c : R) :
  -1 < s < 1 -> -1 <= c <= 1 -> 0 < 1 - s * c.
Proof.
  intros Hs Hc.
  destruct (Rle_lt_dec 0 c), (Rle_lt_dec 0 s); nra.
Qed.

Lemma eccentric_anomaly_elliptic_failure (depth : nat) (s m : R)
    (_ea : option R) (e : exn) :
  -1 < s < 1 -> eccentric_anomaly depth s m _ea = Raise e -> e = RecursionError.
Proof.
  intros Hs. revert _ea. induction depth as [|depth IH]; intros _ea.
  - now intros [= <-].
  - cbn. destruct (Rlt_dec _ _); [discriminate|].
    rewrite pydiv_Ok; [apply IH|].
    apply Rgt_not_eq, Rlt_gt, elliptic_divisor_pos; [exact Hs|apply COS_bound].
Qed.

(** X15: for an eccentricity in (-1, 1) the divisor [1 - e cos E] of
    Newton's update is never zero: the solver either returns or runs out of
    frames, it raises neither [ZeroDivisionError] nor [ValueError]. *)
Theorem eccentric_anomaly_elliptic_outcome (depth : nat) (s m : R)
    (_ea : option R) :
  -1 < s < 1 ->
  (exists E, eccentric_anomaly depth s m _ea = Ok E)
  \/ eccentric_anomaly depth s m _ea = Raise RecursionError.
Proof.
  intros Hs.
  destruct (eccentric_anomaly depth s m _ea) as [E|e] eqn:HE; [left; eauto|].
  right. f_equal. exact (eccentric_anomaly_elliptic_failure _ _ _ _ _ Hs HE).
Qed.

Lemma eccentric_anomaly_elliptic_outcome_witness :
  (exists E, eccentric_anomaly 5 0.5 1 None = Ok E)
  \/ eccentric_anomaly 5 0.5 1 None = Raise RecursionError.
Proof. apply eccentric_anomaly_elliptic_outcome. lra. Defined.

(** ** planets/sphera.py *)

(** X16: in every state a context can be in, the log of instantiations has
    no identifier twice, lists exactly the identifiers that are cached, and
    every cached entry is the orbit of its planet instantiated at the
    context's time. *)
Theorem reachable_cache_log (ctx : CelestialSphera.ctx) (st : Store) :
  reachable ctx st ->
  List.NoDup (calls st)
  /\ (forall id, List.In id (calls st) <-> is_Some (cache st !! id))
  /\ (forall id oi, cache st !! id = Some oi -> oi = instantiated ctx id).
Proof.
  intros Hr. pose proof (reachable_ok _ _ Hr) as Hok.
  split; [|split].
  - apply (NoDup_count_occ PlanetId_eq_dec). intros id.
    specialize (Hok id). unfold call_count in Hok.
    destruct (cache st !! id); [destruct Hok|]; lia.
  - intros id. specialize (Hok id). unfold call_count in Hok.
    rewrite (count_occ_In PlanetId_eq_dec).
    destruct (cache st !! id) as [oi|].
    + destruct Hok as [_ ->]. split; [eauto|lia].
    + rewrite Hok. split; [lia|intros [? [=]]].
  - intros id oi E. specialize (Hok id). rewrite E in Hok. apply Hok.
Qed.

(** The store after a miss for Mercury, a miss for Jupiter and a hit for
    Mercury. *)
Lemma three_calls_store (ctx : CelestialSphera.ctx) :
  snd (CelestialSphera.get_orbit_instance ctx MERCURY
         (snd (CelestialSphera.get_orbit_instance ctx JUPITER
                 (snd (CelestialSphera.get_orbit_instance ctx MERCURY fresh)))))
  = {| cache := <[JUPITER := instantiated ctx JUPITER]>
                  (<[MERCURY := instantiated ctx MERCURY]> ∅);
       calls := [JUPITER; MERCURY] |}.
Proof.
  assert (Hm : cache fresh !! MERCURY = None) by apply lookup_empty.
  rewrite (get_orbit_instance_miss ctx MERCURY fresh Hm).
  cbn [snd fresh cache calls].
  set (st1 := {| cache := <[MERCURY := instantiated ctx MERCURY]> ∅;
                 calls := [MERCURY] |}).
  assert (Hj : cache st1 !! JUPITER = None).
  { cbn [st1 cache]. rewrite lookup_insert_ne by discriminate. apply lookup_empty. }
  rewrite (get_orbit_instance_miss ctx JUPITER st1 Hj).
  cbn [snd st1 cache calls].
  rewrite (get_orbit_instance_hit ctx MERCURY _ (instantiated ctx MERCURY));
    [reflexivity|].
  cbn [cache]. rewrite lookup_insert_ne by discriminate. apply lookup_insert_eq.
Qed.

Lemma reachable_cache_log_witness :
  let ctx := ctx_at 0 1 in
  let st :=
    snd (CelestialSphera.get_orbit_instance ctx MERCURY
           (snd (CelestialSphera.get_orbit_instance ctx JUPITER
                   (snd (CelestialSphera.get_orbit_instance ctx MERCURY fresh))))) in
  calls st = [JUPITER; MERCURY]
  /\ List.NoDup (calls st)
  /\ (forall id, List.In id (calls st) <-> is_Some (cache st !! id))
  /\ (forall id oi, cache st !! id = Some oi -> oi = instantiated ctx id).
Proof.
  cbv zeta. split.
  - now rewrite three_calls_store.
  - apply reachable_cache_log.
    do 3 apply reachable_get. apply reachable_fresh.
Defined.

(** X17: a lookup for one planet leaves the cache entry of every other
    planet, and the count of its instantiations, as they were. *)
Theorem get_orbit_instance_frame (ctx : CelestialSphera.ctx)
    (id id' : PlanetId) (st : Store) :
  id' <> id ->
  let st' := snd (CelestialSphera.get_orbit_instance ctx id st) in
  cache st' !! id' = cache st !! id' /\ call_count id' st' = call_count id' st.
Proof.
  intros Hne. cbv zeta. destruct (cache st !! id) as [oi|] eqn:E.
  - now rewrite (get_orbit_instance_hit _ _ _ _ E).
  - rewrite (get_orbit_instance_miss _ _ _ E). cbn [snd cache].
    rewrite lookup_insert_ne by congruence. split; [reflexivity|].
    rewrite call_count_cons. destruct (decide (id = id')); [congruence|].
    destruct st; reflexivity.
Qed.

Lemma get_orbit_instance_frame_witness :
  let st' := snd (CelestialSphera.get_orbit_instance (ctx_at 0 1) MERCURY fresh) in
  cache st' !! JUPITER = cache fresh !! JUPITER
  /\ call_count JUPITER st' = call_count JUPITER fresh.
Proof. apply get_orbit_instance_frame. discriminate. Defined.

(** X18: the mean anomaly the context gives for a delay [dt] is the mean
    anomaly of the cached orbit less [dt] times its daily motion (both in
    radians); a delay of 0 gives what no delay gives, and the delay has no
    effect on the store. *)
Theorem get_mean_anomaly_delay (ctx : CelestialSphera.ctx) (id : PlanetId)
    (dt : R) (st : Store) :
  reachable ctx st ->
  let oi := instantiated ctx id in
  fst (CelestialSphera.get_mean_anomaly ctx id (Some dt) st)
  = Ok (oi_mean_anomaly oi - dt * oi_daily_motion oi)
  /\ fst (CelestialSphera.get_mean_anomaly ctx id None st) = Ok (oi_mean_anomaly oi)
  /\ fst (CelestialSphera.get_mean_anomaly ctx id (Some 0) st)
     = fst (CelestialSphera.get_mean_anomaly ctx id None st)
  /\ snd (CelestialSphera.get_mean_anomaly ctx id (Some dt) st)
     = snd (CelestialSphera.get_mean_anomaly ctx id None st).
Proof.
  intros Hr. cbv zeta. pose proof (reachable_ok _ _ Hr) as Hok.
  destruct (get_orbit_instance_ok ctx id st Hok) as (st1 & E & _).
  rewrite !get_mean_anomaly_run.
  unfold CelestialSphera.get_mean_anomaly. rewrite bind_run, E. cbn [fst snd ret].
  assert (Hd : forall x, math.radians
                 (x * OElements.daily_motion (Planet.orbit (Planet.for_id id)))
               = x * oi_daily_motion (instantiated ctx id)).
  { intros x. unfold instantiated, math.radians. cbn [OElements.instantiate oi_daily_motion].
    unfold math.radians. ring. }
  rewrite !Hd. repeat split. f_equal. ring.
Qed.

Lemma get_mean_anomaly_delay_witness :
  let oi := instantiated (ctx_at 0 1) PLUTO in
  fst (CelestialSphera.get_mean_anomaly (ctx_at 0 1) PLUTO (Some 1) fresh)
  = Ok (oi_mean_anomaly oi - 1 * oi_daily_motion oi)
  /\ fst (CelestialSphera.get_mean_anomaly (ctx_at 0 1) PLUTO None fresh)
     = Ok (oi_mean_anomaly oi)
  /\ fst (CelestialSphera.get_mean_anomaly (ctx_at 0 1) PLUTO (Some 0) fresh)
     = fst (CelestialSphera.get_mean_anomaly (ctx_at 0 1) PLUTO None fresh)
  /\ snd (CelestialSphera.get_mean_anomaly (ctx_at 0 1) PLUTO (Some 1) fresh)
     = snd (CelestialSphera.get_mean_anomaly (ctx_at 0 1) PLUTO None fresh).
Proof. apply get_mean_anomaly_delay, reachable_fresh. Defined.

(** ** planets/planet.py *)

Lemma sqrt_Ok_inv (x y : R) : math.sqrt x = Ok y -> 0 <= x /\ y = sqrt x.
Proof.
  unfold math.sqrt. destruct (Rlt_dec x 0); [discriminate|].
  intros [= <-]. split; [lra|reflexivity].
Qed.

Lemma _calculate_heliocentric_rho (depth : nat) (oi : OrbitInstance)
    (ma re lg : R) (pert : PertRecord) (h : HelioRecord) :
  _calculate_heliocentric depth oi ma re lg pert = Ok h -> 0 <= h_rho h.
Proof.
  unfold _calculate_heliocentric. cbv zeta. intros H.
  do 4 (apply res_bind_Ok in H as (? & _ & H)).
  apply res_bind_Ok in H as (rho0 & Hrho & H).
  injection H as <-. cbn [h_rho].
  apply sqrt_Ok_inv in Hrho as [_ ->]. apply sqrt_pos.
Qed.

(** X19: the record a heliocentric pass returns is consistent: [spsi] and
    [cpsi] are the sine and cosine of one angle, the distance [rho] is not
    negative and is the third side of the triangle Sun, Earth, planet (law
    of cosines, with the radius vector [rp] behind [rpd = rp * cpsi]), and
    [ll] is the longitude [lpd] counted from the Earth's. *)
Theorem _calculate_heliocentric_record (depth : nat) (oi : OrbitInstance)
    (ma re lg : R) (pert : PertRecord) (h : HelioRecord) :
  _calculate_heliocentric depth oi ma re lg pert = Ok h ->
  h_spsi h ^ 2 + h_cpsi h ^ 2 = 1
  /\ 0 <= h_rho h
  /\ h_ll h = h_lpd h - lg
  /\ exists rp,
       h_rpd h = rp * h_cpsi h
       /\ h_rho h ^ 2 = re ^ 2 + rp ^ 2 - 2 * re * h_rpd h * cos (h_ll h).
Proof.
  unfold _calculate_heliocentric. cbv zeta. intros H.
  apply res_bind_Ok in H as (ea & _ & H).
  apply res_bind_Ok in H as (nu & _ & H).
  apply res_bind_Ok in H as (q & _ & H).
  apply res_bind_Ok in H as (asin_spsi & _ & H).
  apply res_bind_Ok in H as (rho0 & Hrho & H).
  injection H as <-. cbn [h_spsi h_cpsi h_rho h_ll h_lpd h_rpd].
  apply sqrt_Ok_inv in Hrho as [Hpos ->].
  split; [|split; [apply sqrt_pos|split; [reflexivity|]]].
  - pose proof (sin2_cos2 (asin_spsi + dhl pert)) as E. unfold Rsqr in E. lra.
  - exists (q + dr pert). split; [reflexivity|].
    match goal with |- context [sqrt ?X] => set (rad := X) in * end.
    replace (sqrt rad ^ 2) with (sqrt rad * sqrt rad) by ring.
    rewrite sqrt_sqrt by exact Hpos. unfold rad. ring.
Qed.

Lemma _calculate_heliocentric_record_witness :
  exists h,
    _calculate_heliocentric 1
      (OElements.instantiate (Planet.orbit (circular PLUTO 3)) 0) 1 1 0
      PertRecord_default = Ok h
    /\ h_spsi h ^ 2 + h_cpsi h ^ 2 = 1
    /\ 0 <= h_rho h
    /\ h_ll h = h_lpd h - 0
    /\ exists rp,
         h_rpd h = rp * h_cpsi h
         /\ h_rho h ^ 2 = 1 ^ 2 + rp ^ 2 - 2 * 1 * h_rpd h * cos (h_ll h).
Proof.
  destruct (_calculate_heliocentric_circular 0
              (OElements.instantiate (Planet.orbit (circular PLUTO 3)) 0) 1 1 0
              (circular_eccentricity PLUTO 3 0)) as (h & c & E & _).
  exists h. split; [exact E|].
  exact (_calculate_heliocentric_record _ _ _ _ _ _ _ E).
Defined.

Lemma sin_sin_le_1 (x y : R) : Rabs (sin x * sin y) <= 1.
Proof.
  rewrite Rabs_mult.
  assert (Hs : forall z, 0 <= Rabs (sin z) <= 1).
  { intros z. split; [apply Rabs_pos|].
    apply Rabs_le. destruct (SIN_bound z). lra. }
  pose proof (Hs x). pose proof (Hs y). nra.
Qed.

Lemma cosine_rule_nonneg (re rp c1 c2 : R) :
  -1 <= c1 <= 1 -> -1 <= c2 <= 1 ->
  0 <= re * re + rp * rp - 2 * re * rp * c1 * c2.
Proof.
  intros H1 H2.
  assert (Hc : -1 <= c1 * c2 <= 1) by (split; nra).
  set (c := c1 * c2) in *.
  replace (re * re + rp * rp - 2 * re * rp * c1 * c2)
    with (re * re + rp * rp - 2 * re * rp * c) by (unfold c; ring).
  pose proof (Rle_0_sqr (re - rp * c)) as Ha. unfold Rsqr in Ha.
  assert (Hb : 0 <= (1 - c) * (1 + c)) by (apply Rmult_le_pos; lra).
  pose proof (Rmult_le_pos _ _ (Rle_0_sqr rp) Hb) as Hd. unfold Rsqr in Hd.
  lra.
Qed.

(** Over the reals, when the corrected eccentricity lies in (-1, 1), the
    only way a heliocentric pass can fail is the Kepler solver running out
    of frames. *)
Lemma _calculate_heliocentric_cases (depth : nat) (oi : OrbitInstance)
    (ma re lg : R) (pert : PertRecord) :
  -1 < oi_eccentricity oi + ds pert < 1 ->
  (exists h, _calculate_heliocentric depth oi ma re lg pert = Ok h)
  \/ _calculate_heliocentric depth oi ma re lg pert = Raise RecursionError.
Proof.
  intros Hs. unfold _calculate_heliocentric. cbv zeta.
  set (s := oi_eccentricity oi + ds pert) in *.
  destruct (eccentric_anomaly depth s (reduce_rad (ma + dm pert)) None)
    as [ea|e] eqn:Hea.
  2:{ right. cbn [res_bind]. f_equal.
      exact (eccentric_anomaly_elliptic_failure _ _ _ _ _ Hs Hea). }
  left. cbn [res_bind].
  rewrite true_anomaly_Ok by lra.
  set (nu := 2 * atan _).
  cbn [res_bind]. rewrite pydiv_Ok.
  2:{ apply Rgt_not_eq, Rlt_gt.
      replace (1 + s * cos nu) with (1 - s * (- cos nu)) by ring.
      apply elliptic_divisor_pos; [exact Hs|]. destruct (COS_bound nu). lra. }
  cbn [res_bind]. rewrite asin_Ok by apply sin_sin_le_1.
  cbn [res_bind]. rewrite sqrt_Ok by (apply cosine_rule_nonneg; apply COS_bound).
  cbn [res_bind]. eauto.
Qed.

(** X20: when the corrected eccentricity lies in (-1, 1), none of the
    three divisions of a heliocentric pass ([1 - s cos E] in the Kepler
    solver, [1 - s] in [true_anomaly], [1 + s cos nu] in the radius vector)
    has a zero divisor: the pass does not raise [ZeroDivisionError].  (No
    more is claimed of its failures: on binary64 numbers the radicand of
    the cosine rule can round below zero, which [sqrt] refuses.) *)
Theorem _calculate_heliocentric_outcome (depth : nat) (oi : OrbitInstance)
    (ma re lg : R) (pert : PertRecord) :
  -1 < oi_eccentricity oi + ds pert < 1 ->
  _calculate_heliocentric depth oi ma re lg pert <> Raise ZeroDivisionError.
Proof.
  intros Hs.
  destruct (_calculate_heliocentric_cases depth oi ma re lg pert Hs)
    as [[h ->] | ->]; discriminate.
Qed.

Lemma _calculate_heliocentric_outcome_witness :
  _calculate_heliocentric 3
    (OElements.instantiate (Planet.orbit (circular PLUTO 3)) 0)
    1 1 0 PertRecord_default <> Raise ZeroDivisionError.
Proof.
  apply _calculate_heliocentric_outcome.
  rewrite circular_eccentricity. cbn [ds PertRecord_default]. lra.
Defined.

Lemma helio_pass_rho (depth : nat) (self : Planet.t) (ctx : CelestialSphera.ctx)
    (oi : OrbitInstance) (lg rg dt : R) (st st' : Store) (h : HelioRecord) :
  helio_pass depth self ctx oi lg rg dt st = (Ok h, st') -> 0 <= h_rho h.
Proof.
  unfold helio_pass. rewrite bind_run.
  destruct (CelestialSphera.get_mean_anomaly _ _ _ st) as [[ma|e] st1];
    [|discriminate].
  rewrite bind_run.
  destruct (_calculate_perturbations self ctx dt st1) as [[pert|e] st2];
    [|discriminate].
  unfold lift. intros [= H _].
  now apply _calculate_heliocentric_rho in H.
Qed.

Lemma _get_corrected_helio_rho (depth : nat) (self : Planet.t)
    (ctx : CelestialSphera.ctx) (oi : OrbitInstance) (lg rg dt rho0 : R)
    (st st' : Store) (h : HelioRecord) :
  (dt <> 0 -> 0 <= rho0) ->
  _get_corrected_helio depth self ctx oi lg rg dt rho0 st = (Ok h, st') ->
  0 <= h_rho h.
Proof.
  revert dt rho0 st. induction depth as [|depth IH]; intros dt rho0 st Hrho;
    [discriminate|].
  rewrite _get_corrected_helio_unfold.
  destruct (helio_pass depth self ctx oi lg rg dt st) as [[h1|e] st1] eqn:E1;
    [|discriminate].
  apply helio_pass_rho in E1.
  destruct (Req_dec_T dt 0) as [Hz|Hnz].
  - apply IH. intros _. exact E1.
  - intros [= <- _]. cbn [with_rho h_rho]. now apply Hrho.
Qed.

Lemma degrees_reduce_rad (x : R) : 0 <= math.degrees (reduce_rad x) < 360.
Proof.
  pose proof (reduce_rad_bounds x) as H. unfold PI2, math.pi in H.
  unfold math.degrees. pose proof PI_RGT_0.
  assert (0 < 180 / PI) by (apply Rdiv_lt_0_compat; lra).
  split.
  - apply Rmult_le_pos; lra.
  - replace 360 with (PI * 2 * (180 / PI)) by (field; lra).
    apply Rmult_lt_compat_r; lra.
Qed.

Lemma degrees_atan (x : R) : -90 < math.degrees (atan x) < 90.
Proof.
  destruct (atan_bound x). unfold math.degrees. pose proof PI_RGT_0.
  assert (0 < 180 / PI) by (apply Rdiv_lt_0_compat; lra).
  split.
  - replace (-90) with (- PI / 2 * (180 / PI)) by (field; lra).
    apply Rmult_lt_compat_r; lra.
  - replace 90 with (PI / 2 * (180 / PI)) by (field; lra).
    apply Rmult_lt_compat_r; lra.
Qed.

(** X21: whenever [geocentric_position] returns a position, its longitude
    lies between 0 and 360 degrees and its distance is not negative; for a
    context of geometric (not apparent) positions the latitude lies between
    -90 and 90 degrees.  (The ends are left in: rounding can set the wrapped
    longitude on 360.0, and the arc tangent of a large quotient on a right
    angle.) *)
Theorem geocentric_position_ranges (depth : nat) (self : Planet.t)
    (ctx : CelestialSphera.ctx) (st : Store) :
  match geocentric_position depth self ctx st with
  | (Ok pos, _) =>
      0 <= lmbda pos <= 360
      /\ 0 <= delta pos
      /\ (CelestialSphera.apparent ctx = false -> -90 <= beta pos <= 90)
  | (Raise _, _) => True
  end.
Proof.
  destruct (geocentric_position depth self ctx st) as [[pos|e] st'] eqn:H;
    [|exact I].
  revert H. unfold geocentric_position. cbv zeta. rewrite bind_run.
  destruct (_get_corrected_helio depth self ctx _ _ _ 0 0 st) as [[h|e] st1] eqn:E;
    [|discriminate].
  apply _get_corrected_helio_rho in E; [|intros Hn; now contradiction Hn].
  unfold lift. intros [= Hpos _].
  apply res_bind_Ok in Hpos as (q & _ & Hpos).
  apply res_bind_Ok in Hpos as (lb & Hlb & Hpos).
  injection Hpos as <-. cbn [lmbda beta delta].
  split; [|split; [exact E|]].
  - assert (Hwrap : forall x, 0 <= math.degrees (reduce_rad x) <= 360).
    { intros x. pose proof (degrees_reduce_rad x). lra. }
    destruct (CelestialSphera.apparent ctx).
    + apply res_bind_Ok in Hlb as (q' & _ & Hlb). injection Hlb as <-.
      apply Hwrap.
    + injection Hlb as <-. apply Hwrap.
  - intros Happ. rewrite Happ in Hlb. injection Hlb as <-.
    assert (Hatan : forall x, -90 <= math.degrees (atan x) <= 90).
    { intros x. pose proof (degrees_atan x). lra. }
    apply Hatan.
Qed.

(** ** planets/pert.py *)

Lemma keeps_ok_ret (ctx : CelestialSphera.ctx) {A} (a : A) : keeps_ok ctx (ret a).
Proof. intros st H. exact H. Qed.

Lemma keeps_ok_lift (ctx : CelestialSphera.ctx) {A} (r : Res A) :
  keeps_ok ctx (lift r).
Proof. intros st H. exact H. Qed.

Lemma keeps_ok_bind (ctx : CelestialSphera.ctx) {A B} (c : M A) (k : A -> M B) :
  keeps_ok ctx c -> (forall a, keeps_ok ctx (k a)) -> keeps_ok ctx (bind c k).
Proof.
  intros Hc Hk st Hst. rewrite bind_run. specialize (Hc st Hst).
  destruct (c st) as [[a|e] st']; [now apply Hk|exact Hc].
Qed.

Lemma keeps_ok_get_orbit_instance (ctx : CelestialSphera.ctx) (id : PlanetId) :
  keeps_ok ctx (CelestialSphera.get_orbit_instance ctx id).
Proof. intros st. apply store_ok_get. Qed.

Lemma keeps_ok_get_mean_anomaly (ctx : CelestialSphera.ctx) (id : PlanetId)
    (dt : option R) :
  keeps_ok ctx (CelestialSphera.get_mean_anomaly ctx id dt).
Proof.
  apply keeps_ok_bind; [apply keeps_ok_get_orbit_instance|].
  intros oi. apply keeps_ok_ret.
Qed.

Ltac keeps_ok_steps :=
  cbv zeta;
  repeat first
    [ apply keeps_ok_ret
    | apply keeps_ok_lift
    | apply keeps_ok_get_mean_anomaly
    | apply keeps_ok_get_orbit_instance
    | apply keeps_ok_bind; [|intros ?] ].

Lemma keeps_ok_get_data (ctx : CelestialSphera.ctx) (pc : PertCalculator)
    (dt : R) :
  keeps_ok ctx (get_data pc ctx dt).
Proof.
  destruct pc; cbn [get_data].
  - apply keeps_ok_ret.
  - unfold PertMercury_get_data. keeps_ok_steps.
  - unfold PertVenus_get_data. keeps_ok_steps.
  - unfold PertMars_get_data. keeps_ok_steps.
  - unfold PertJupiter_get_data. keeps_ok_steps.
  - unfold PertSaturn_get_data. keeps_ok_steps.
  - unfold PertUranus_get_data. keeps_ok_steps.
  - unfold PertNeptune_get_data. keeps_ok_steps.
  - apply keeps_ok_ret.
Qed.

Lemma keeps_ok__get_corrected_helio (depth : nat) (self : Planet.t)
    (ctx : CelestialSphera.ctx) (oi : OrbitInstance) (lg rg dt rho0 : R) :
  keeps_ok ctx (_get_corrected_helio depth self ctx oi lg rg dt rho0).
Proof.
  revert dt rho0. induction depth as [|depth IH]; intros dt rho0.
  - apply keeps_ok_lift.
  - cbn [_get_corrected_helio].
    apply keeps_ok_bind; [apply keeps_ok_get_mean_anomaly|intros ma].
    apply keeps_ok_bind; [apply keeps_ok_get_data|intros pert].
    apply keeps_ok_bind; [apply keeps_ok_lift|intros h].
    destruct (Req_dec_T dt 0); [apply IH|apply keeps_ok_ret].
Qed.

(** X22: a whole position computation keeps the orbit cache of the context
    consistent: started in a state the context can be in, it leaves (on
    success or failure) a store in which no orbit was instantiated more
    than once and every cached entry is the orbit of its planet at the
    context's time. *)
Theorem geocentric_position_keeps_cache (depth : nat) (self : Planet.t)
    (ctx : CelestialSphera.ctx) (st : Store) :
  reachable ctx st ->
  let st' := snd (geocentric_position depth self ctx st) in
  forall id,
    (call_count id st' <= 1)%nat
    /\ (is_Some (cache st' !! id) <-> call_count id st' = 1%nat)
    /\ forall oi, cache st' !! id = Some oi -> oi = instantiated ctx id.
Proof.
  intros Hr. cbv zeta.
  assert (Hok : store_ok ctx (snd (geocentric_position depth self ctx st))).
  { apply reachable_ok in Hr. revert st Hr.
    change (keeps_ok ctx (geocentric_position depth self ctx)).
    unfold geocentric_position. cbv zeta.
    apply keeps_ok_bind; [apply keeps_ok__get_corrected_helio|intros h].
    apply keeps_ok_lift. }
  intros id. specialize (Hok id).
  destruct (cache _ !! id) as [oi|].
  - destruct Hok as [-> ->]. split; [lia|]. split; [now split; eauto|].
    now intros ? [= <-].
  - rewrite Hok. split; [lia|]. split; [|discriminate].
    split; [intros [? [=]]|discriminate].
Qed.

Lemma geocentric_position_keeps_cache_witness :
  let st' := snd (geocentric_position 3 (Planet.for_id JUPITER) (ctx_at 0 1) fresh) in
  (call_count JUPITER st' <= 1)%nat
  /\ (is_Some (cache st' !! JUPITER) <-> call_count JUPITER st' = 1%nat)
  /\ forall oi, cache st' !! JUPITER = Some oi -> oi = instantiated (ctx_at 0 1) JUPITER.
Proof.
  exact (geocentric_position_keeps_cache 3 (Planet.for_id JUPITER) (ctx_at 0 1)
           fresh (reachable_fresh _) JUPITER).
Defined.

(** X23: the registry is consistent: the planet registered under an
    identifier carries that identifier and the perturbation calculator of
    that identifier, and is marked inner exactly for Mercury and Venus. *)
Theorem for_id_consistent (id : PlanetId) :
  Planet.id (Planet.for_id id) = id
  /\ PertCalculator_id (Planet.pert_calculator (Planet.for_id id)) = id
  /\ (Planet.is_inner (Planet.for_id id) = true <-> id = MERCURY \/ id = VENUS).
Proof.
  destruct id; cbn; repeat split; try reflexivity; try discriminate;
    try (intros [?|?]; discriminate); auto.
Qed.

Lemma never_fails_ret {A} (a : A) : never_fails (ret a).
Proof. intros st. now exists a, st. Qed.

Lemma never_fails_bind {A B} (c : M A) (k : A -> M B) :
  never_fails c -> (forall a, never_fails (k a)) -> never_fails (bind c k).
Proof.
  intros Hc Hk st. rewrite bind_run.
  destruct (Hc st) as (a & st' & ->). apply Hk.
Qed.

Lemma never_fails_get_mean_anomaly (ctx : CelestialSphera.ctx) (id : PlanetId)
    (dt : R) :
  never_fails (CelestialSphera.get_mean_anomaly ctx id (Some dt)).
Proof. intros st. apply get_mean_anomaly_total. Qed.

Ltac never_fails_steps :=
  cbv zeta;
  repeat first
    [ apply never_fails_ret
    | apply never_fails_get_mean_anomaly
    | apply never_fails_bind; [|intros ?] ].

(** The perturbations of Mercury, Venus, Mars and Pluto, and those of the
    base calculator, are computed without any failure, in every context,
    for every delay and from every store. *)
Lemma inner_perturbations_never_fail (pc : PertCalculator)
    (ctx : CelestialSphera.ctx) (dt : R) :
  match pc with
  | PertJupiter | PertSaturn | PertUranus | PertNeptune => True
  | _ => never_fails (get_data pc ctx dt)
  end.
Proof.
  destruct pc; cbn [get_data]; try exact I.
  - apply never_fails_ret.
  - unfold PertMercury_get_data. never_fails_steps.
  - unfold PertVenus_get_data. never_fails_steps.
  - unfold PertMars_get_data. never_fails_steps.
  - apply never_fails_ret.
Qed.

Ltac outer_outcome E :=
  cbv zeta; rewrite bind_run, E, bind_run; unfold lift, pydiv;
  split; intros Hs;
  [ destruct (Req_dec_T _ 0) as [_|Hn]; [reflexivity|contradiction]
  | destruct (Req_dec_T _ 0) as [Hz|_]; [contradiction|cbn [fst]; eauto] ].

(** X24: the only failure of a perturbation calculator is a division by
    the planet's eccentricity: in a state the context can be in, those of
    Jupiter, Saturn, Uranus and Neptune fail with [ZeroDivisionError] when
    the planet's eccentricity at the context's time is 0 and return a
    record otherwise; those of Mercury, Venus, Mars and Pluto (and the
    base calculator) always return a record. *)
Theorem perturbations_outcome (pc : PertCalculator)
    (ctx : CelestialSphera.ctx) (dt : R) (st : Store) :
  reachable ctx st ->
  match pc with
  | PertJupiter | PertSaturn | PertUranus | PertNeptune =>
      let s := oi_eccentricity (instantiated ctx (PertCalculator_id pc)) in
      (s = 0 -> fst (get_data pc ctx dt st) = Raise ZeroDivisionError)
      /\ (s <> 0 -> exists r, fst (get_data pc ctx dt st) = Ok r)
  | _ => exists r, fst (get_data pc ctx dt st) = Ok r
  end.
Proof.
  intros Hr. apply reachable_ok in Hr.
  pose proof (inner_perturbations_never_fail pc ctx dt) as Hin.
  destruct pc;
    try (destruct (Hin st) as (r & st' & ->); now exists r);
    cbn [get_data PertCalculator_id].
  - destruct (get_orbit_instance_ok ctx JUPITER st Hr) as (st1 & E & _).
    unfold PertJupiter_get_data. outer_outcome E.
  - destruct (get_orbit_instance_ok ctx SATURN st Hr) as (st1 & E & _).
    unfold PertSaturn_get_data. outer_outcome E.
  - destruct (get_orbit_instance_ok ctx URANUS st Hr) as (st1 & E & _).
    unfold PertUranus_get_data. outer_outcome E.
  - destruct (get_orbit_instance_ok ctx NEPTUNE st Hr) as (st1 & E & _).
    unfold PertNeptune_get_data. outer_outcome E.
Qed.

Lemma perturbations_outcome_witness :
  let s := oi_eccentricity (instantiated (ctx_at 0 1) JUPITER) in
  (s = 0 -> fst (get_data PertJupiter (ctx_at 0 1) 0 fresh) = Raise ZeroDivisionError)
  /\ (s <> 0 -> exists r, fst (get_data PertJupiter (ctx_at 0 1) 0 fresh) = Ok r).
Proof.
  exact (perturbations_outcome PertJupiter (ctx_at 0 1) 0 fresh
           (reachable_fresh _)).
Defined.

Ltac bound_trig :=
  repeat match goal with
         | |- context [cos ?x] =>
             let H := fresh "H" in
             pose proof (COS_bound x) as H; generalize dependent (cos x); intros
         | |- context [sin ?x] =>
             let H := fresh "H" in
             pose proof (SIN_bound x) as H; generalize dependent (sin x); intros
         end.

Ltac run_mean_anomaly ctx :=
  repeat (rewrite bind_run;
          match goal with
          | |- context [CelestialSphera.get_mean_anomaly ctx ?id (Some ?dt) ?st] =>
              let ma := fresh "ma" in
              let st' := fresh "st" in
              destruct (get_mean_anomaly_total ctx id dt st) as (ma & st' & ->)
          end).

Lemma radians_Rabs_le (x b : R) :
  Rabs x <= b -> Rabs (math.radians x) <= math.radians b.
Proof.
  intros H. unfold math.radians. pose proof PI_RGT_0.
  rewrite Rabs_mult, (Rabs_right (PI / 180)) by lra.
  apply Rmult_le_compat_r; lra.
Qed.

(** X25: the perturbations of Mercury, Venus and Mars are bounded by the
    sums of the coefficients of their series: [dl] and [dr] never exceed
    them in absolute value, [dm] is at most the bound in degrees converted
    to radians, the correction of the mean longitude equals that of the
    mean anomaly, and eccentricity, semi-axis and latitude are never
    corrected. *)
Theorem inner_perturbations_bounded (pc : PertCalculator)
    (ctx : CelestialSphera.ctx) (dt : R) (st : Store) :
  match inner_pert_bounds pc, fst (get_data pc ctx dt st) with
  | Some (b_dl, b_dr, b_dm), Ok r =>
      Rabs (dl r) <= b_dl /\ Rabs (dr r) <= b_dr
      /\ Rabs (dm r) <= math.radians b_dm
      /\ dml r = dm r /\ ds r = 0 /\ da r = 0 /\ dhl r = 0
  | _, _ => True
  end.
Proof.
  destruct pc; cbn [inner_pert_bounds get_data]; try exact I.
  - unfold PertMercury_get_data. cbv zeta. run_mean_anomaly ctx.
    cbn [ret fst dl dr dm dml ds da dhl].
    repeat split; try lra.
    + apply Rabs_le. bound_trig. lra.
    + apply Rabs_le. bound_trig. lra.
    + unfold math.radians. replace 0.0 with 0 by lra. rewrite Rmult_0_l, Rabs_R0. lra.
  - unfold PertVenus_get_data. cbv zeta. run_mean_anomaly ctx.
    cbn [ret fst dl dr dm dml ds da dhl].
    repeat split; try lra.
    + apply Rabs_le. bound_trig. lra.
    + apply Rabs_le. bound_trig. lra.
    + apply radians_Rabs_le. apply Rabs_le. bound_trig. lra.
  - unfold PertMars_get_data. cbv zeta. run_mean_anomaly ctx.
    cbn [ret fst dl dr dm dml ds da dhl].
    repeat split; try lra.
    + apply Rabs_le. bound_trig. lra.
    + apply Rabs_le. bound_trig. lra.
    + apply radians_Rabs_le. apply Rabs_le. bound_trig. lra.
Qed.

(** ** nutation.py, obliq.py, sun/sun.py *)

Lemma scaled_trig_bound (t S : R) :
  -2 <= t <= 2 -> -1 <= S <= 1 -> -2 <= t * S <= 2.
Proof. intros Ht HS. split; nra. Qed.

Ltac bound_scaled_trig t Ht :=
  repeat match goal with
         | |- context [cos ?x] =>
             let H := fresh "H" in
             let H' := fresh "H" in
             pose proof (COS_bound x) as H;
             pose proof (scaled_trig_bound t (cos x) Ht H) as H';
             generalize dependent (cos x); intros
         | |- context [sin ?x] =>
             let H := fresh "H" in
             let H' := fresh "H" in
             pose proof (SIN_bound x) as H;
             pose proof (scaled_trig_bound t (sin x) Ht H) as H';
             generalize dependent (sin x); intros
         end.

Lemma nutation_deps_range (t : R) :
  -2 <= t <= 2 -> - (10.1 / 3600) <= deps (calc_nutation t) <= 10.1 / 3600.
Proof.
  intros Ht. unfold calc_nutation. cbv zeta. cbn [deps].
  bound_scaled_trig t Ht; lra.
Qed.

(** X26: within two centuries of the epoch the nutation stays small: at
    most 19.4 arc-seconds in longitude and 10.1 arc-seconds in obliquity
    (the values are returned in degrees). *)
Theorem calc_nutation_bounded (t : R) :
  -2 <= t <= 2 ->
  Rabs (dpsi (calc_nutation t)) <= 19.4 / 3600
  /\ Rabs (deps (calc_nutation t)) <= 10.1 / 3600.
Proof.
  intros Ht. split; apply Rabs_le; [|exact (nutation_deps_range t Ht)].
  unfold calc_nutation. cbv zeta. cbn [dpsi].
  bound_scaled_trig t Ht; lra.
Qed.

Lemma calc_nutation_bounded_witness :
  Rabs (dpsi (calc_nutation 0.84)) <= 19.4 / 3600
  /\ Rabs (deps (calc_nutation 0.84)) <= 10.1 / 3600.
Proof. apply calc_nutation_bounded. lra. Defined.

Lemma mean_obliquity_range (djd : R) :
  0 <= djd <= 73050 ->
  23.45229444 - 0.0261 <= calc_obliquity djd 0 <= 23.45229444.
Proof.
  intros Hd. unfold calc_obliquity, DAYS_PER_CENT. cbv zeta.
  set (t := djd / 36525).
  assert (Ht : 0 <= t <= 2) by (unfold t; lra).
  assert (Hc : 0 <= ((-0.00181 * t + 0.0059) * t + 46.845) * t <= 93.72) by nra.
  lra.
Qed.

Lemma calc_obliquity_deps (djd deps0 : R) :
  calc_obliquity djd deps0 = calc_obliquity djd 0 + deps0.
Proof. unfold calc_obliquity. cbv zeta. ring. Qed.

(** X27: the true obliquity is the mean obliquity plus the nutation in
    obliquity, and from 1900 to 2100 the mean obliquity decreases from
    23.45229444 degrees by at most 0.0261 degrees. *)
Theorem calc_obliquity_spec (djd deps0 : R) :
  0 <= djd <= 73050 ->
  calc_obliquity djd deps0 = calc_obliquity djd 0 + deps0
  /\ 23.45229444 - 0.0261 <= calc_obliquity djd 0 <= 23.45229444.
Proof.
  intros Hd. split.
  - apply calc_obliquity_deps.
  - now apply mean_obliquity_range.
Qed.

Lemma calc_obliquity_spec_witness :
  calc_obliquity 30700.5 0.001 = calc_obliquity 30700.5 0 + 0.001
  /\ 23.45229444 - 0.0261 <= calc_obliquity 30700.5 0 <= 23.45229444.
Proof. apply calc_obliquity_spec. lra. Defined.

Lemma sun_eccentricity (t : R) :
  0 <= t <= 2 ->
  0.0166 < polynome t 1.675104e-2 [-4.18e-5; -1.26e-7] < 0.0168.
Proof.
  intros Ht. unfold polynome. cbn [rev app fold_left]. split; nra.
Qed.

Lemma true_geocentric_cases (depth : nat) (t : R) (ms : option R) :
  0 <= t <= 2 ->
  (exists p, sun.true_geocentric depth t ms = Ok p
             /\ 0 <= phi p < 360 /\ 0.983 < rho p < 1.017)
  \/ sun.true_geocentric depth t ms = Raise RecursionError.
Proof.
  intros Ht. unfold sun.true_geocentric. cbv zeta.
  pose proof (sun_eccentricity t Ht) as Hs.
  set (s := polynome t 1.675104e-2 [-4.18e-5; -1.26e-7]) in *.
  set (m := _ - PI2 * _).
  destruct (eccentric_anomaly depth s m None) as [ea|e] eqn:Hea.
  2:{ right. cbn [res_bind]. f_equal.
      apply (eccentric_anomaly_elliptic_failure depth s m None); [lra|exact Hea]. }
  left. cbn [res_bind]. rewrite true_anomaly_Ok by lra.
  cbn [res_bind]. eexists. split; [reflexivity|]. cbn [phi rho].
  split; [apply reduce_deg_bounds|].
  unfold sun._calc_perturbations.
  pose proof (COS_bound ea) as Hea'.
  assert (Hp : -0.0168 <= s * cos ea <= 0.0168) by (split; nra).
  set (p := s * cos ea) in *. clearbody p. clear Hea'.
  bound_trig. lra.
Qed.

(** X28: from 1900 to 2100, and for whatever mean anomaly [ms] it is
    given, the position of the Sun either is returned or the Kepler solver
    ran out of frames (nothing else fails); a returned longitude lies
    between 0 and 360 degrees and the distance between 0.983 and 1.017 A.U.
    (The end 360 is left in: for a longitude that is a tiny negative number
    before the wrap, rounding sets the wrapped value on 360.0.) *)
Theorem true_geocentric_spec (depth : nat) (t : R) (ms : option R) :
  0 <= t <= 2 ->
  match sun.true_geocentric depth t ms with
  | Ok p => 0 <= phi p <= 360 /\ 0.983 < rho p < 1.017
  | Raise e => e = RecursionError
  end.
Proof.
  intros Ht.
  destruct (true_geocentric_cases depth t ms Ht) as [(p & -> & Hp) | ->].
  - split; [lra|apply Hp].
  - reflexivity.
Qed.

Lemma true_geocentric_spec_witness :
  match sun.true_geocentric 20 0.84 None with
  | Ok p => 0 <= phi p <= 360 /\ 0.983 < rho p < 1.017
  | Raise e => e = RecursionError
  end.
Proof. apply true_geocentric_spec. lra. Defined.

(** X29: a context created for a date from 1900 to 2100 has its time in
    centuries, the Sun's mean anomaly in [0, 2 PI), the Sun's longitude in
    [0, 360) degrees at a distance between 0.983 and 1.017 A.U., the
    nutation of that time, and the true obliquity within 10.1 arc-seconds
    below or above a mean obliquity between 23.426 and 23.4523 degrees;
    creation fails only when the Kepler solver runs out of frames. *)
Theorem create_spec (depth : nat) (djd : R) (app : bool) :
  0 <= djd <= 73050 ->
  match CelestialSphera.create depth djd app with
  | Ok c =>
      CelestialSphera.t c = djd / 36525
      /\ CelestialSphera.apparent c = app
      /\ 0 <= CelestialSphera.manom_sun c < 2 * PI
      /\ 0 <= phi (CelestialSphera.sun_geo c) < 360
      /\ 0.983 < rho (CelestialSphera.sun_geo c) < 1.017
      /\ CelestialSphera.nutation c = calc_nutation (CelestialSphera.t c)
      /\ 23.45229444 - 0.0261 - 10.1 / 3600 <= CelestialSphera.obliquity c
         <= 23.45229444 + 10.1 / 3600
  | Raise e => e = RecursionError
  end.
Proof.
  intros Hd. unfold CelestialSphera.create. cbv zeta.
  assert (Ht : 0 <= djd / DAYS_PER_CENT <= 2) by (unfold DAYS_PER_CENT; lra).
  destruct (true_geocentric_cases depth (djd / DAYS_PER_CENT)
              (Some (sun.mean_anomaly (djd / DAYS_PER_CENT))) Ht)
    as [(sg & -> & Hsun) | ->]; [|reflexivity].
  cbn [res_bind CelestialSphera.t CelestialSphera.apparent
       CelestialSphera.manom_sun CelestialSphera.sun_geo
       CelestialSphera.nutation CelestialSphera.obliquity].
  destruct Hsun as [Hphi Hrho].
  split; [reflexivity|]. split; [reflexivity|].
  split; [apply radians_range, reduce_deg_bounds|].
  split; [exact Hphi|]. split; [exact Hrho|]. split; [reflexivity|].
  rewrite calc_obliquity_deps.
  pose proof (mean_obliquity_range djd Hd) as Hob.
  pose proof (nutation_deps_range (djd / DAYS_PER_CENT)) as Hn. lra.
Qed.

Lemma create_spec_witness :
  match CelestialSphera.create 20 30700.5 false with
  | Ok c =>
      CelestialSphera.t c = 30700.5 / 36525
      /\ CelestialSphera.apparent c = false
      /\ 0 <= CelestialSphera.manom_sun c < 2 * PI
      /\ 0 <= phi (CelestialSphera.sun_geo c) < 360
      /\ 0.983 < rho (CelestialSphera.sun_geo c) < 1.017
      /\ CelestialSphera.nutation c = calc_nutation (CelestialSphera.t c)
      /\ 23.45229444 - 0.0261 - 10.1 / 3600 <= CelestialSphera.obliquity c
         <= 23.45229444 + 10.1 / 3600
  | Raise e => e = RecursionError
  end.
Proof. apply create_spec. lra. Defined.

(** ** Convergence of the Kepler solver for mean anomalies in [PI/2, PI] *)

Section Monotone.

Variables (e M : R).
Hypothesis He : 0 <= e < 1.
Hypothesis HM : PI / 2 <= M <= PI.

Let f := residual e M.
Let N := newton e M.
Let x := estimate e M.

Lemma divisor_bounds (y : R) : 0 < 1 - e * cos y < 2.
Proof. destruct (COS_bound y). split; nra. Qed.

Lemma newton_equation (y : R) : f y = (1 - e * cos y) * (y - N y).
Proof.
  unfold f, N, newton. pose proof (divisor_bounds y). field. lra.
Qed.

Lemma residual_above_tangent (y z : R) :
  0 <= y <= PI -> 0 <= z <= PI ->
  f y + (1 - e * cos y) * (z - y) <= f z.
Proof.
  intros Hy Hz. unfold f, residual.
  pose proof (sin_below_tangent y z Hy Hz). nra.
Qed.

Lemma newton_above_M (y : R) : M <= y <= PI -> M <= N y.
Proof.
  intros Hy. pose proof (divisor_bounds y) as Hd.
  pose proof PI_RGT_0.
  assert (Hc : cos y <= 0) by (apply cos_le_0; lra).
  assert (Hs : 0 <= sin y) by (apply sin_ge_0; lra).
  assert (Hn : 0 <= (1 - e * cos y) * (N y - M)).
  { replace ((1 - e * cos y) * (N y - M))
      with ((1 - e * cos y) * (y - M) - f y)
      by (rewrite newton_equation; ring).
    unfold f, residual.
    replace ((1 - e * cos y) * (y - M) - (y - e * sin y - M))
      with (e * sin y + e * (- cos y * (y - M))) by ring.
    apply Rplus_le_le_0_compat; apply Rmult_le_pos; try lra.
    apply Rmult_le_pos; lra. }
  apply (Rmult_le_reg_l (1 - e * cos y)); [lra|].
  lra.
Qed.

Lemma newton_right_of_root (y : R) :
  M <= y <= PI -> N y <= PI -> 0 <= f (N y).
Proof.
  intros Hy HN. pose proof (newton_above_M y Hy). pose proof PI_RGT_0.
  pose proof (residual_above_tangent y (N y)) as H1.
  rewrite newton_equation in H1. lra.
Qed.

Lemma first_update_below_PI : N M <= PI.
Proof.
  pose proof (divisor_bounds M) as Hd. pose proof PI_RGT_0.
  assert (Hc : cos M <= 0) by (apply cos_le_0; lra).
  assert (Hs : 0 <= sin M) by (apply sin_ge_0; lra).
  assert (Hsin : sin M <= PI - M).
  { rewrite <- sin_PI_x. destruct (Req_dec_T M PI) as [->|Hne].
    - replace (PI - PI) with 0 by ring. rewrite sin_0. lra.
    - left. apply sin_lt_x. lra. }
  assert (Hn : (1 - e * cos M) * (N M - M) = e * sin M).
  { replace ((1 - e * cos M) * (N M - M)) with (- f M)
      by (rewrite newton_equation; ring).
    unfold f, residual. ring. }
  assert (Hes : 0 <= e * sin M) by (apply Rmult_le_pos; lra).
  assert (Hec : 0 <= e * - cos M) by (apply Rmult_le_pos; lra).
  assert (Hpos : 0 <= N M - M).
  { apply (Rmult_le_reg_l (1 - e * cos M)); lra. }
  assert (Hle : 0 <= (e * - cos M) * (N M - M)) by (apply Rmult_le_pos; lra).
  assert (Hsm : e * sin M <= sin M).
  { replace (sin M) with (1 * sin M) at 2 by ring.
    apply Rmult_le_compat_r; lra. }
  lra.
Qed.

(** From the first update on, the estimates stay between [M] and [PI], to
    the right of the root. *)
Lemma estimate_invariant (k : nat) :
  M <= x (S k) <= PI /\ 0 <= f (x (S k)).
Proof.
  induction k as [|k IH].
  - change (x 1%nat) with (N M).
    assert (HMM : M <= M <= PI) by lra.
    pose proof first_update_below_PI.
    split; [split; [now apply newton_above_M|assumption]|].
    now apply newton_right_of_root.
  - change (x (S (S k))) with (N (x (S k))).
    destruct IH as [Hx Hf].
    assert (HN : N (x (S k)) <= x (S k)).
    { pose proof (divisor_bounds (x (S k))). rewrite newton_equation in Hf. nra. }
    split; [split; [now apply newton_above_M|lra]|].
    apply newton_right_of_root; [exact Hx|lra].
Qed.

(** As long as the stopping test fails, every update moves the estimate
    down by at least half the tolerance. *)
Lemma estimate_progress (K : nat) :
  (forall k, (k < K)%nat -> ~ Rabs (f (x (S k))) < _DELTA) ->
  INR K * (_DELTA / 2) <= x 1%nat - x (S K).
Proof.
  induction K as [|K IH]; intros H.
  - cbn [INR]. lra.
  - rewrite S_INR.
    assert (IH' : INR K * (_DELTA / 2) <= x 1%nat - x (S K))
      by (apply IH; intros k Hk; apply H; lia).
    destruct (estimate_invariant K) as [_ Hf].
    assert (Hres : _DELTA <= f (x (S K))).
    { specialize (H K (Nat.lt_succ_diag_r K)).
      rewrite Rabs_right in H by lra. lra. }
    change (x (S (S K))) with (N (x (S K))).
    pose proof (divisor_bounds (x (S K))). rewrite newton_equation in Hres, Hf.
    nra.
Qed.

Lemma passing_or_not (K : nat) :
  (exists k, (k < K)%nat /\ Rabs (f (x (S k))) < _DELTA)
  \/ (forall k, (k < K)%nat -> ~ Rabs (f (x (S k))) < _DELTA).
Proof.
  induction K as [|K [(k & Hk & Hp) | Hn]].
  - right. intros k Hk. lia.
  - left. exists k. split; [lia|exact Hp].
  - destruct (Rlt_dec (Rabs (f (x (S K)))) _DELTA) as [Hp|Hp].
    + left. exists K. split; [lia|exact Hp].
    + right. intros k Hk. destruct (Nat.eq_dec k K) as [->|Hne]; [exact Hp|].
      apply Hn. lia.
Qed.

Lemma some_estimate_passes :
  exists k, (k < enough_updates)%nat /\ Rabs (f (x (S k))) < _DELTA.
Proof.
  destruct (passing_or_not enough_updates) as [H|H]; [exact H|exfalso].
  apply estimate_progress in H.
  assert (HK : INR enough_updates = 50000000).
  { unfold enough_updates. rewrite INR_IZR_INZ, Z2Nat.id by lia. reflexivity. }
  rewrite HK in H. unfold _DELTA in H.
  destruct (estimate_invariant 0) as [[_ H1] _].
  destruct (estimate_invariant enough_updates) as [[H2 _] _].
  pose proof PI_4. lra.
Qed.

Lemma solver_reaches (depth j k : nat) :
  (k < depth)%nat ->
  Rabs (f (x (j + k))) < _DELTA ->
  exists E, eccentric_anomaly depth e M (Some (x j)) = Ok E.
Proof.
  revert j k. induction depth as [|depth IH]; intros j k Hk Hp; [lia|].
  destruct (Rlt_dec (Rabs (f (x j))) _DELTA) as [Hj|Hj].
  - exists (x j). now apply eccentric_anomaly_stop.
  - destruct k as [|k]; [now rewrite Nat.add_0_r in Hp|].
    rewrite eccentric_anomaly_step;
      [|exact Hj|pose proof (divisor_bounds (x j)); lra].
    apply (IH (S j) k); [lia|].
    now replace (S j + k)%nat with (j + S k)%nat by lia.
Qed.

End Monotone.

(** X30: for every eccentricity in [0, 1) and every mean anomaly in
    [PI/2, PI] the Kepler solver returns, as soon as it is given more
    than 50,000,001 frames: from the first Newton update on, the estimates
    decrease toward the root between [M] and [PI], each by at least half
    the tolerance while the stopping test fails.  The value returned lies
    in [M, PI] and passes the stopping test. *)
Theorem eccentric_anomaly_converges (e M : R) (depth : nat) :
  0 <= e < 1 ->
  PI / 2 <= M <= PI ->
  (S enough_updates < depth)%nat ->
  exists E,
    eccentric_anomaly depth e M None = Ok E
    /\ Rabs (E - e * sin E - M) < _DELTA
    /\ M <= E <= PI.
Proof.
  intros He HM Hd.
  destruct (some_estimate_passes e M He HM) as (k & Hk & Hp).
  destruct (solver_reaches e M He depth 0 (S k)) as [E HE]; [lia|exact Hp|].
  change (estimate e M 0) with M in HE. rewrite <- eccentric_anomaly_None in HE.
  exists E. split; [exact HE|]. split; [now apply eccentric_anomaly_sound in HE|].
  rewrite eccentric_anomaly_None in HE.
  apply (eccentric_anomaly_from_estimate depth e M 0) in HE as (i & _ & -> & _).
  cbn [Nat.add].
  destruct i as [|i]; [cbn; lra|].
  apply (estimate_invariant e M He HM i).
Qed.

Lemma eccentric_anomaly_converges_witness :
  exists E,
    eccentric_anomaly (S (S enough_updates)) 0.5 2 None = Ok E
    /\ Rabs (E - 0.5 * sin E - 2) < _DELTA
    /\ 2 <= E <= PI.
Proof.
  apply eccentric_anomaly_converges.
  - lra.
  - pose proof PI_4. pose proof PI2_3_2. lra.
  - apply Nat.lt_succ_diag_r.
Defined.
